(** * PreInscriberWithProtection: the three-transaction chain builder

    A shallow embedding of [PreInscriberWithProtection] (ordit-sdk,
    transactions module) and the properties of its transaction wiring,
    validation order and fee-convergence loop.

    Conventions of the embedding:
    - a [Buffer] is represented by its hex string; the [hash] of a PSBT input
      is kept in display order, i.e. it is the string
      [reverseBuffer(txInput.hash).toString("hex")];
    - a base64 PSBT string is represented by the [Psbt] it decodes to, so
      [decodePSBT] and [toBase64] do not appear;
    - satoshi amounts are integers ([Z]); fee rates are rationals ([Q]): the
      CPFP fee rate is the exact quotient where the source divides in floating
      point, and it is only handed on to the funding estimate;
    - an [async] function is run to its result; where the source fans out
      with [Promise.all] the callbacks are taken in list order, and for the
      validation the part of a callback in front of its [await] is kept apart
      from the part behind it;
    - bitcoinjs-lib, bitcoinselect, the data source and the helpers of the
      SDK that live outside this module are collaborators, gathered in the
      classes [Lib] and [BaseDatasource]. *)

From Stdlib Require Import List ZArith QArith String Ascii Bool Lia.
From Stdlib Require Import DecimalString DecimalNat Qround.
Import ListNotations.

Local Open Scope string_scope.
Local Open Scope Z_scope.

(** ** Data model *)

Definition Buffer := string.
Definition Network := string.
Definition Chain := string.

Inductive Error : Type :=
| OrditSDKError (message : string)
| TypeError (message : string)
| ExternalError (message : string).

(** The result of running (a bounded prefix of) an async function. *)
Inductive Outcome (A : Type) : Type :=
| Returns (a : A)
| Throws (e : Error)
| OutOfFuel.
Arguments Returns {A} a.
Arguments Throws {A} e.
Arguments OutOfFuel {A}.

Record WitnessUtxo := mkWitnessUtxo {
  wu_script : Buffer;
  wu_value : Z
}.

(** One PSBT input: the transaction input ([hash], [index]) together with the
    per-input data map of [psbt.data.inputs]. *)
Record PsbtInput := mkPsbtInput {
  hash : string;
  index : nat;
  witnessUtxo : option WitnessUtxo;
  tapInternalKey : option Buffer;
  tapMerkleRoot : option Buffer;
  sighashType : option Z;
  redeemScript : option Buffer
}.

Record TxOutput := mkTxOutput {
  txo_script : Buffer;
  txo_value : Z
}.

Record Psbt := mkPsbt {
  inputs : list PsbtInput;
  txOutputs : list TxOutput
}.

(** [Output] of ./types. *)
Record Output := mkOutput {
  o_address : string;
  o_value : Z
}.

(** [UTXO] of ./types, the fields this module reads. *)
Record UTXO := mkUTXO {
  utxo_txid : string;
  utxo_n : nat;
  utxo_sats : Z;
  utxo_address : string
}.

(** [Inscription], the fields this module reads. *)
Record Inscription := mkInscription {
  insc_outpoint : string;
  insc_owner : string
}.

(** A [bsUTXO] as handed to bitcoinselect: input data plus the four fields
    the source adds. *)
Record CoinInput := mkCoinInput {
  ci_data : PsbtInput;
  ci_txid : string;
  ci_vout : nat;
  ci_value : Z;
  ci_isTaproot : bool
}.

(** An output as returned by coin selection: a change output has no address,
    and [value] may be missing. *)
Record SelectedOutput := mkSelectedOutput {
  so_address : option string;
  so_value : option Z
}.

Record CoinSelectResult := mkCoinSelectResult {
  cs_inputs : option (list CoinInput);
  cs_outputs : option (list SelectedOutput)
}.

(** [bitcoin.Payment], the fields this module reads. *)
Record Payment := mkPayment {
  pay_address : option string;
  pay_output : option Buffer;
  pay_hash : option Buffer
}.

Record ScriptTypeResponse := mkScriptTypeResponse {
  st_type : string;
  st_address : option string   (* payload && payload.address *)
}.

Record Envelope := mkEnvelope {
  mediaContent : string;
  mediaType : string;
  receiverAddress : string;
  postage : Z
}.

Record BuildTransactionsResponse := mkBuildTransactionsResponse {
  firstTransactionPSBTB64 : Psbt;
  secondTransactionPSBTB64s : list Psbt;
  thirdTransactionPSBTB64 : Psbt
}.

Record GetEscrowTaprootAddressResponse := mkEscrowResponse {
  address : string;
  merkleHash : string
}.

(** ** Collaborators *)

(** Calls this module makes on the data source. [None] stands for an
    [undefined] answer. *)
Class BaseDatasource := {
  getUnspents : string -> Error + option (list UTXO);
  getInscriptions : string -> Error + option (list Inscription)
}.

(** Everything imported from bitcoinjs-lib, bitcoinselect and the rest of the
    SDK. A function that can throw returns [Error + _]. *)
Class Lib := {
  getAddressType : string -> Network -> Error + string;
  getScriptType : Buffer -> Network -> Error + ScriptTypeResponse;
  isP2TR : Buffer -> Network -> bool;        (* !!isP2TR(script, network).payload *)
  toXOnly : string -> Buffer;                (* toXOnly(Buffer.from(publicKey, "hex")) *)
  getNetwork : Network -> string;
  toOutputScript : string -> string -> Error + Buffer;   (* used by Psbt.addOutput *)
  getId : list (string * nat * option Buffer) -> list TxOutput -> string;
  processInput : UTXO -> string -> Network -> Error + PsbtInput;
  JSON_stringify : list (string * string) -> string;
  buildWitnessScriptV2 : string -> list Envelope -> Error + Buffer;
  script_compile_checksig : Buffer -> Buffer; (* script.compile([key, OP_CHECKSIG]) *)
  p2tr : Buffer -> string -> Buffer * Buffer -> Error + Payment;
  coinSelect : list CoinInput -> list Output -> Z -> string -> CoinSelectResult;
  funding : list CoinInput -> list TxOutput -> Q -> Z;
  transactionBytes : list CoinInput -> list TxOutput -> Z
}.

(** ** Session state and the monad of the builder *)

(** What a run leaves behind: the calls on the data source, and a mark for
    each transaction a builder has returned. *)
Inductive Event : Type :=
| GetInscriptions (outpoint : string)
| GetUnspents (addr : string)
| BuiltFirst
| BuiltSecond (outputIndex : nat)
| BuiltThird.

(** The mutable fields of the class instance, and the log of data-source
    calls and of transactions built so far (most recent last). *)
Record Session := mkSession {
  buyerUtxos : list UTXO;
  buyerCommitPaymentAddress : option Payment;
  firstTxId : option string;
  trace : list Event
}.

Definition M (A : Type) : Type := Session -> Session * Outcome A.

Definition ret {A} (a : A) : M A := fun s => (s, Returns a).
Definition throw {A} (e : Error) : M A := fun s => (s, Throws e).
Definition bind {A B} (m : M A) (k : A -> M B) : M B :=
  fun s =>
    match m s with
    | (s', Returns a) => k a s'
    | (s', Throws e) => (s', Throws e)
    | (s', OutOfFuel) => (s', OutOfFuel)
    end.

Declare Scope builder_scope.
Delimit Scope builder_scope with builder.
Notation "x <- m ;; k" := (bind m (fun x => k))
  (at level 100, m at next level, right associativity) : builder_scope.
Notation "m ;; k" := (bind m (fun _ => k))
  (at level 100, right associativity) : builder_scope.
Local Open Scope builder_scope.

Definition lift {A} (r : Error + A) : M A :=
  match r with
  | inl e => throw e
  | inr a => ret a
  end.

Definition get_session : M Session := fun s => (s, Returns s).

Definition log (e : Event) (s : Session) : Session :=
  mkSession (buyerUtxos s) (buyerCommitPaymentAddress s) (firstTxId s) (trace s ++ [e]).

Definition emit (e : Event) : M unit := fun s => (log e s, Returns tt).

Definition logs (es : list Event) (s : Session) : Session :=
  mkSession (buyerUtxos s) (buyerCommitPaymentAddress s) (firstTxId s) (trace s ++ es).

Definition set_buyerUtxos (u : list UTXO) : M unit :=
  fun s => (mkSession u (buyerCommitPaymentAddress s) (firstTxId s) (trace s), Returns tt).

Definition set_buyerCommitPaymentAddress (p : Payment) : M unit :=
  fun s => (mkSession (buyerUtxos s) (Some p) (firstTxId s) (trace s), Returns tt).

Definition set_firstTxId (id : string) : M unit :=
  fun s => (mkSession (buyerUtxos s) (buyerCommitPaymentAddress s) (Some id) (trace s), Returns tt).

(** [for]/[map] over a list with a throwing body, left to right. *)
Fixpoint mapM {A B} (f : A -> M B) (l : list A) : M (list B) :=
  match l with
  | [] => ret []
  | a :: l' => b <- f a ;; bs <- mapM f l' ;; ret (b :: bs)
  end.

Fixpoint mapE {A B} (f : A -> Error + B) (l : list A) : Error + list B :=
  match l with
  | [] => inr []
  | a :: l' =>
      match f a with
      | inl e => inl e
      | inr b => match mapE f l' with
                 | inl e => inl e
                 | inr bs => inr (b :: bs)
                 end
      end
  end.

(** [array.map((x, i) => ...)]: the elements paired with their positions. *)
Fixpoint indexed_from {A} (i : nat) (l : list A) : list (nat * A) :=
  match l with
  | [] => []
  | a :: l' => (i, a) :: indexed_from (S i) l'
  end.
Definition indexed {A} (l : list A) : list (nat * A) := indexed_from 0 l.

Definition sumZ {A} (f : A -> Z) (l : list A) : Z :=
  fold_left (fun acc a => acc + f a) l 0.

Definition string_of_nat (n : nat) : string :=
  NilEmpty.string_of_uint (Nat.to_uint n).

(** Configuration: the readonly fields set by the constructor. *)
Record Config := mkConfig {
  network : Network;
  chain : Chain;
  escrowPublicKey : string;
  inscriptionsPsbts : list Psbt;
  buyerAddress : string;
  buyerPublicKey : string;
  receiveAddress : string;
  effectiveFeeRate : Q;
  extraOutputs : list Output
}.

Definition BASE_FEERATE : Z := 2.
Definition SIGHASH_ALL : Z := 1.

(** [reverseBuffer] on the hex representation: the bytes in opposite order. *)
Fixpoint hex_bytes (s : string) : list string :=
  match s with
  | String a (String b r) => String a (String b "") :: hex_bytes r
  | _ => []
  end.
Definition reverseBuffer (s : string) : string :=
  String.concat "" (rev (hex_bytes s)).

Definition witness_value (i : PsbtInput) : Z :=
  match witnessUtxo i with
  | Some wu => wu_value wu
  | None => 0
  end.

(** [`${reverseBuffer(txInput.hash).toString("hex")}:${txInput.index}`] *)
Definition outpoint_of (i : PsbtInput) : string :=
  hash i ++ ":" ++ string_of_nat (index i).

Definition with_hash (h : string) (i : PsbtInput) : PsbtInput :=
  mkPsbtInput h (index i) (witnessUtxo i) (tapInternalKey i) (tapMerkleRoot i)
    (sighashType i) (redeemScript i).
Definition with_index (n : nat) (i : PsbtInput) : PsbtInput :=
  mkPsbtInput (hash i) n (witnessUtxo i) (tapInternalKey i) (tapMerkleRoot i)
    (sighashType i) (redeemScript i).
Definition with_tapMerkleRoot (r : option Buffer) (i : PsbtInput) : PsbtInput :=
  mkPsbtInput (hash i) (index i) (witnessUtxo i) (tapInternalKey i) r
    (sighashType i) (redeemScript i).

(** [psbt.addInput] and [psbt.addOutput] push at the end. *)
Definition addInput (p : Psbt) (i : PsbtInput) : Psbt :=
  mkPsbt (inputs p ++ [i]) (txOutputs p).
Definition addOutput (p : Psbt) (o : TxOutput) : Psbt :=
  mkPsbt (inputs p) (txOutputs p ++ [o]).

Definition truthy_string (s : option string) : option string :=
  match s with
  | Some "" => None
  | other => other
  end.

(** The messages of the errors this module throws. *)
Definition msg_psbts_required : string := "inscriptionsPsbts are required".
Definition msg_buyer_address (addr : string) : string :=
  "Buyer address " ++ addr ++ " must be a segwit/taproot/p2sh address".
Definition msg_invalid_seller_psbt : string := "invalid seller psbt".
Definition msg_invalid_seller_address : string := "invalid seller address in psbt".
Definition msg_not_found (outpoint : string) : string :=
  "Inscription at " ++ outpoint ++ " not found".
Definition msg_not_match (outpoint : string) : string :=
  "Inscription at " ++ outpoint ++ " does not match".
Definition msg_no_utxos (addr : string) : string :=
  "No spendable utxos found for " ++ addr.
Definition msg_not_enough_funds : string := "No input utxo found. Not enough funds.".
Definition msg_no_output : string := "No output found.".
Definition msg_value_required : string := "Output value is required".
Definition msg_unsupported_script : string :=
  "scripts other than p2tr and p2wpkh are not supported!".
Definition msg_escrow_address : string := "Error while creating escrow address".

Definition undefined_read (prop : string) : Error :=
  TypeError ("Cannot read properties of undefined (reading '" ++ prop ++ "')").

(** ** The static helpers *)

Section Static.
Context {lib : Lib}.

Definition psbt_network (chain : Chain) (network : Network) : string :=
  getNetwork (if chain =? "fractal-bitcoin" then "mainnet" else network)%string.

Definition json_envelope (content : string) (receiver : string) : Envelope :=
  mkEnvelope content "application/json;charset=utf-8" receiver 0.

Definition getEscrowTaprootAddress
    (inscriptionOutpoint escrowPublicKey : string) (network : Network) (chain : Chain)
    : Error + GetEscrowTaprootAddressResponse :=
  let escrowXPub := toXOnly escrowPublicKey in
  let mediaContent := JSON_stringify [("inscriptionOutpoint", inscriptionOutpoint)] in
  match buildWitnessScriptV2 escrowXPub [json_envelope mediaContent ""] with
  | inl e => inl e
  | inr dataScript =>
      let redeemScript := script_compile_checksig escrowXPub in
      match p2tr escrowXPub (psbt_network chain network) (redeemScript, dataScript) with
      | inl e => inl e
      | inr payment =>
          match truthy_string (pay_address payment), pay_hash payment with
          | Some a, Some h => inr (mkEscrowResponse a h)
          | _, _ => inl (OrditSDKError msg_escrow_address)
          end
      end
  end.

(** [bitcoin.Transaction.fromBuffer(psbt.data.getTransaction()).getId()]:
    the id of the unsigned transaction, all input scripts empty. *)
Definition unsigned_txid (psbt : Psbt) : string :=
  getId (map (fun i => (hash i, index i, None)) (inputs psbt)) (txOutputs psbt).

(** [{ script: psbtOutput.script, value: psbtOutput.value }] *)
Definition witness_of (o : TxOutput) : WitnessUtxo :=
  mkWitnessUtxo (txo_script o) (txo_value o).

Definition toCoinInput (txid : string) (net : Network) (i : PsbtInput) : CoinInput :=
  mkCoinInput i txid (index i) (witness_value i)
    (match witnessUtxo i with
     | Some wu => isP2TR (wu_script wu) net
     | None => false
     end).

Definition calculateFundingAmount (psbt : Psbt) (feeRate : Q) : Z :=
  let inputs := map (fun i => toCoinInput (hash i) "mainnet" i) (inputs psbt) in
  funding inputs (txOutputs psbt) feeRate.

End Static.

(** ** The builder *)

Section Builder.
Context {lib : Lib} {datasource : BaseDatasource}.
Variable cfg : Config.

Definition getBuyerUtxos : M unit :=
  if (buyerAddress cfg =? "")%string then ret tt
  else
    emit (GetUnspents (buyerAddress cfg)) ;;
    spendableUTXOs <- lift (getUnspents (buyerAddress cfg)) ;;
    match spendableUTXOs with
    | None | Some [] => throw (OrditSDKError (msg_no_utxos (buyerAddress cfg)))
    | Some us => set_buyerUtxos us
    end.

(** The part of the validation callback that runs before its [await]:
    it yields the outpoint to look up and the seller address. *)
Definition validate_before_await (psbt : Psbt) : Error + (string * string) :=
  match inputs psbt with
  | [] => inl (undefined_read "hash")
  | input :: _ =>
      let outpoint := outpoint_of input in
      match witnessUtxo input with
      | None => inl (OrditSDKError msg_invalid_seller_psbt)
      | Some wu =>
          match getScriptType (wu_script wu) (network cfg) with
          | inl e => inl e
          | inr data =>
              match truthy_string (st_address data) with
              | None => inl (OrditSDKError msg_invalid_seller_address)
              | Some sellerAddress => inr (outpoint, sellerAddress)
              end
          end
      end
  end.

(** The part that runs once the data source has answered. *)
Definition validate_after_await (q : string * string) : Error + unit :=
  let '(outpoint, sellerAddress) := q in
  match getInscriptions outpoint with
  | inl e => inl e
  | inr None | inr (Some []) => inl (OrditSDKError (msg_not_found outpoint))
  | inr (Some inscriptionsRes) =>
      if existsb (fun inscription =>
                    (insc_outpoint inscription =? outpoint)%string
                    && (insc_owner inscription =? sellerAddress)%string)
           inscriptionsRes
      then inr tt
      else inl (OrditSDKError (msg_not_match outpoint))
  end.

(** The whole callback for one PSBT. *)
Definition validate_one (psbt : Psbt) : Error + unit :=
  match validate_before_await psbt with
  | inl e => inl e
  | inr q => validate_after_await q
  end.

Fixpoint first_error {A} (l : list (Error + A)) : option Error :=
  match l with
  | [] => None
  | inl e :: _ => Some e
  | inr _ :: l' => first_error l'
  end.

Fixpoint successes {A} (l : list (Error + A)) : list A :=
  match l with
  | [] => []
  | inl _ :: l' => successes l'
  | inr a :: l' => a :: successes l'
  end.

Fixpoint emit_all (es : list Event) : M unit :=
  match es with
  | [] => ret tt
  | e :: es' => emit e ;; emit_all es'
  end.

(** [Promise.all] over the callbacks: every callback runs up to its [await]
    (so every lookup that is reached is issued); a callback that threw before
    its [await] rejects first, in list order; otherwise the answers are taken
    in list order. *)
Definition validateInscriptionPsbts (inscriptionPsbts : list Psbt) : M unit :=
  let started := map validate_before_await inscriptionPsbts in
  emit_all (map (fun q => GetInscriptions (fst q)) (successes started)) ;;
  match first_error started with
  | Some e => throw e
  | None => lift (mapE validate_after_await (successes started)) ;; ret tt
  end.

Definition getTotalFees (psbt : Psbt) : Z :=
  sumZ witness_value (inputs psbt) - sumZ txo_value (txOutputs psbt).

Definition getVBytes (psbt : Psbt) : Z :=
  transactionBytes
    (map (fun i => toCoinInput (reverseBuffer (hash i)) (network cfg) i) (inputs psbt))
    (txOutputs psbt).

Definition truthy_sighash (t : option Z) : option Z :=
  match t with
  | Some 0 => None
  | other => other
  end.

Definition generateInputFromPSBTOutput
    (psbt : Psbt) (outputIndex : nat) (publicKey : string) (sighash : option Z)
    : Error + PsbtInput :=
  let txId := unsigned_txid psbt in
  match nth_error (txOutputs psbt) outputIndex with
  | None => inl (undefined_read "script")
  | Some psbtOutput =>
      match getScriptType (txo_script psbtOutput) (network cfg) with
      | inl e => inl e
      | inr scriptType =>
          let witness := witness_of psbtOutput in
          if (st_type scriptType =? "p2tr")%string then
            inr (mkPsbtInput txId outputIndex (Some witness) (Some (toXOnly publicKey))
                   None (truthy_sighash sighash) None)
          else if (st_type scriptType =? "p2wpkh")%string then
            inr (mkPsbtInput txId outputIndex (Some witness) None
                   None (truthy_sighash sighash) None)
          else inl (OrditSDKError msg_unsupported_script)
      end
  end.

Definition getBuyerCommitAddress (uniqueId : string) : M string :=
  let buyerXPub := toXOnly (buyerPublicKey cfg) in
  let mediaContent :=
    JSON_stringify [("buyerPublicKey", buyerPublicKey cfg);
                    ("buyerAddress", buyerAddress cfg);
                    ("uniqueId", uniqueId)] in
  dataScript <- lift (buildWitnessScriptV2 buyerXPub
                        [json_envelope mediaContent (buyerAddress cfg)]) ;;
  let redeemScript := script_compile_checksig buyerXPub in
  payment <- lift (p2tr buyerXPub (psbt_network (chain cfg) (network cfg))
                     (redeemScript, dataScript)) ;;
  match truthy_string (pay_address payment) with
  | None => throw (OrditSDKError msg_escrow_address)
  | Some a => set_buyerCommitPaymentAddress payment ;; ret a
  end.

(** One buyer UTXO prepared for coin selection. *)
Definition prepare_utxo (utxo : UTXO) : Error + CoinInput :=
  match processInput utxo (buyerPublicKey cfg) (network cfg) with
  | inl e => inl e
  | inr data =>
      match getAddressType (utxo_address utxo) (network cfg) with
      | inl e => inl e
      | inr t =>
          inr (mkCoinInput data (utxo_txid utxo) (utxo_n utxo) (utxo_sats utxo)
                 (t =? "p2tr")%string)
      end
  end.

(** Body of the first [for] loop of [createFirstTransaction]. *)
Definition first_tx_input (inputs : list CoinInput) (input : CoinInput) : Error + PsbtInput :=
  match find (fun i => (ci_txid i =? ci_txid input)%string
                       && Nat.eqb (ci_vout i) (ci_vout input)) inputs with
  | None => inl (undefined_read "txid")
  | Some utxoInput =>
      inr (with_index (ci_vout input) (with_hash (ci_txid utxoInput) (ci_data utxoInput)))
  end.

(** Body of the second [for] loop of [createFirstTransaction]. *)
Definition first_tx_output (_output : SelectedOutput) : Error + TxOutput :=
  match so_value _output with
  | None | Some 0 => inl (OrditSDKError msg_value_required)
  | Some v =>
      let addr := match so_address _output with
                  | Some a => a
                  | None => buyerAddress cfg
                  end in
      match toOutputScript addr (psbt_network (chain cfg) (network cfg)) with
      | inl e => inl e
      | inr script => inr (mkTxOutput script v)
      end
  end.

Definition createFirstTransaction (outputs : list Output) : M Psbt :=
  s <- get_session ;;
  inputs <- lift (mapE prepare_utxo (buyerUtxos s)) ;;
  let res := coinSelect inputs outputs BASE_FEERATE (buyerAddress cfg) in
  match cs_inputs res with
  | None | Some [] => throw (OrditSDKError msg_not_enough_funds)
  | Some res_inputs =>
      match cs_outputs res with
      | None | Some [] => throw (OrditSDKError msg_no_output)
      | Some res_outputs =>
          psbtInputs <- lift (mapE (first_tx_input inputs) res_inputs) ;;
          psbtOutputs <- lift (mapE first_tx_output res_outputs) ;;
          let txId :=
            getId (map (fun '(i, input) => (hash i, index i, redeemScript (ci_data input)))
                     (combine psbtInputs res_inputs))
                  psbtOutputs in
          set_firstTxId txId ;;
          emit BuiltFirst ;;
          ret (mkPsbt psbtInputs psbtOutputs)
      end
  end.

Definition createSecondTransaction
    (firstTransactionPSBT : Psbt) (outputIndex : nat) (inscriptionPsbt : Psbt) : M Psbt :=
  s <- get_session ;;
  generated <- lift (generateInputFromPSBTOutput firstTransactionPSBT outputIndex
                       (buyerPublicKey cfg) (Some SIGHASH_ALL)) ;;
  match buyerCommitPaymentAddress s with
  | None => throw (undefined_read "hash")
  | Some payment =>
      match firstTxId s with
      | None => throw (ExternalError "Invalid arguments for Psbt.addInput")
      | Some txId =>
          let input := with_tapMerkleRoot (pay_hash payment) (with_hash txId generated) in
          emit (BuiltSecond outputIndex) ;;
          ret (addInput inscriptionPsbt input)
      end
  end.

(** The callback mapped over the second transactions by
    [createWithdrawTransaction]. *)
Definition escrow_input (psbt : Psbt) : Error + PsbtInput :=
  let outputIndex := 0%nat in
  match nth_error (inputs psbt) outputIndex with
  | None => inl (undefined_read "hash")
  | Some txInput =>
      let inscriptionOutpoint := outpoint_of txInput in
      match getEscrowTaprootAddress inscriptionOutpoint (escrowPublicKey cfg)
              (network cfg) (chain cfg) with
      | inl e => inl e
      | inr escrow =>
          match generateInputFromPSBTOutput psbt outputIndex (escrowPublicKey cfg)
                  (Some SIGHASH_ALL) with
          | inl e => inl e
          | inr generated => inr (with_tapMerkleRoot (Some (merkleHash escrow)) generated)
          end
      end
  end.

Definition receive_output (input : PsbtInput) : Error + TxOutput :=
  match toOutputScript (receiveAddress cfg) (psbt_network (chain cfg) (network cfg)) with
  | inl e => inl e
  | inr script => inr (mkTxOutput script (witness_value input))
  end.

Definition extra_output (output : Output) : Error + TxOutput :=
  match toOutputScript (o_address output) (psbt_network (chain cfg) (network cfg)) with
  | inl e => inl e
  | inr script => inr (mkTxOutput script (o_value output))
  end.

Definition createWithdrawTransaction
    (firstTransactionPSBT : Psbt) (firstTransactionOutputIndex : nat)
    (secondTransactionPSBTs : list Psbt) : M Psbt :=
  s <- get_session ;;
  inputs <- lift (mapE escrow_input secondTransactionPSBTs) ;;
  receiveOutputs <- lift (mapE receive_output inputs) ;;
  extras <- lift (mapE extra_output (extraOutputs cfg)) ;;
  fundingInput <- lift (generateInputFromPSBTOutput firstTransactionPSBT
                          firstTransactionOutputIndex (buyerPublicKey cfg)
                          (Some SIGHASH_ALL)) ;;
  match buyerCommitPaymentAddress s with
  | None => throw (undefined_read "hash")
  | Some payment =>
      match pay_hash payment with
      | None => throw (undefined_read "toString")
      | Some h =>
          match firstTxId s with
          | None => throw (ExternalError "Invalid arguments for Psbt.addInput")
          | Some txId =>
              emit BuiltThird ;;
              ret (mkPsbt
                     (inputs ++ [with_tapMerkleRoot (Some h) (with_hash txId fundingInput)])
                     (receiveOutputs ++ extras))
          end
      end
  end.

Definition zero_hash : string :=
  "0000000000000000000000000000000000000000000000000000000000000000".

Definition dummyAmount : Z := 600.

(** The dummy input added for the funding calculation: it spends nothing
    ([Buffer.alloc(32, 0)], index 0) and looks like a taproot spend of the
    buyer's commitment script. *)
Definition dummy_input (payment : Payment) (script : Buffer) : PsbtInput :=
  mkPsbtInput zero_hash 0 (Some (mkWitnessUtxo script dummyAmount))
    (Some (toXOnly (buyerPublicKey cfg))) (pay_hash payment) None None.

(** The seller PST with the dummy input appended, as built inside the [map]
    of the loop body. *)
Definition with_dummy_input (payment : Payment) (psbt : Psbt) : Error + Psbt :=
  match pay_output payment with
  | None => inl (ExternalError "Invalid arguments for Psbt.addInput")
  | Some script => inr (addInput psbt (dummy_input payment script))
  end.

Definition commitment_output
    (payment : option Payment) (buyerCommitmentAddress : string) (psbt : Psbt)
    : Error + Output :=
  match payment with
  | None => inl (undefined_read "output")
  | Some payment =>
      match with_dummy_input payment psbt with
      | inl e => inl e
      | inr padded =>
          let fundingAmount := calculateFundingAmount padded (inject_Z BASE_FEERATE) in
          inr (mkOutput buyerCommitmentAddress (fundingAmount + dummyAmount))
      end
  end.

(** What one pass of the [do ... while] body computes: the three stages and
    the extra CPFP funding. *)
Record Pass := mkPass {
  pass_txs : BuildTransactionsResponse;
  pass_extra : Z
}.

Definition CPFPFeeRate_of (first : Psbt) (seconds : list Psbt) (third : Psbt) : Q :=
  let totalVbytes := getVBytes first + getVBytes third + sumZ getVBytes seconds in
  let desiredTotalFee := (effectiveFeeRate cfg * inject_Z totalVbytes)%Q in
  let feesPaidByFirstTx := getTotalFees first in
  let feesPaidBySecondTxs := sumZ getTotalFees seconds in
  ((desiredTotalFee - inject_Z (feesPaidByFirstTx + feesPaidBySecondTxs))
   / inject_Z (getVBytes third))%Q.

Definition firstTransactionOutputs_of
    (payment : option Payment) (buyerCommitmentAddress : string) (CPFPFunding : Z)
    : Error + list Output :=
  match mapE (commitment_output payment buyerCommitmentAddress) (inscriptionsPsbts cfg) with
  | inl e => inl e
  | inr outs => inr (outs ++ [mkOutput buyerCommitmentAddress CPFPFunding])%list
  end.

Definition loop_body (uniqueId : string) (CPFPFunding : Z) : M Pass :=
  buyerCommitmentAddress <- getBuyerCommitAddress uniqueId ;;
  s <- get_session ;;
  firstTransactionOutputs <-
    lift (firstTransactionOutputs_of (buyerCommitPaymentAddress s)
            buyerCommitmentAddress CPFPFunding) ;;
  let firstTransactionOutputIndexForCPFPFunding :=
    (List.length firstTransactionOutputs - 1)%nat in
  firstTransaction <- createFirstTransaction firstTransactionOutputs ;;
  secondTransactions <-
    mapM (fun '(index, inscription) =>
            createSecondTransaction firstTransaction index inscription)
         (indexed (inscriptionsPsbts cfg)) ;;
  thirdTransaction <-
    createWithdrawTransaction firstTransaction
      firstTransactionOutputIndexForCPFPFunding secondTransactions ;;
  let CPFPFeeRate := CPFPFeeRate_of firstTransaction secondTransactions thirdTransaction in
  let extraFunding := calculateFundingAmount thirdTransaction CPFPFeeRate in
  ret (mkPass (mkBuildTransactionsResponse firstTransaction secondTransactions
                 thirdTransaction)
              extraFunding).

(** The [do ... while (extraCPFPFunding > 0)] loop; [fuel] bounds the number
    of passes the model runs, the source has no such bound. *)
Fixpoint fee_loop (fuel : nat) (uniqueId : string) (CPFPFunding : Z)
    : M BuildTransactionsResponse :=
  match fuel with
  | O => fun s => (s, OutOfFuel)
  | S fuel' =>
      pass <- loop_body uniqueId CPFPFunding ;;
      if 0 <? pass_extra pass
      then fee_loop fuel' uniqueId (CPFPFunding + pass_extra pass)
      else ret (pass_txs pass)
  end.

Definition supported_buyer_type (t : string) : bool :=
  ((t =? "p2sh") || (t =? "p2wsh") || (t =? "p2wpkh") || (t =? "p2tr"))%string.

Definition buildTransactions (fuel : nat) (uniqueId : string)
    : M BuildTransactionsResponse :=
  match inscriptionsPsbts cfg with
  | [] => throw (OrditSDKError msg_psbts_required)
  | _ :: _ =>
      buyerAddressType <- lift (getAddressType (buyerAddress cfg) (network cfg)) ;;
      if negb (supported_buyer_type buyerAddressType)
      then throw (OrditSDKError (msg_buyer_address (buyerAddress cfg)))
      else
        validateInscriptionPsbts (inscriptionsPsbts cfg) ;;
        getBuyerUtxos ;;
        fee_loop fuel uniqueId 600
  end.

End Builder.

(** ** The seller side: [createInscriptionPSBT] *)

(** What the static method asks of its collaborators: the UTXO holding an
    inscription ([None] for [undefined]), and [processInput] called with a
    signature-hash type. *)
Class SellerSide := {
  getInscriptionUTXO : string -> Error + option UTXO;
  processInputWith : UTXO -> string -> Network -> Z -> Error + PsbtInput
}.

Definition SIGHASH_ANYONECANPAY : Z := 128.

Definition msg_inscription_not_found (inscriptionId : string) : string :=
  "Inscription " ++ inscriptionId ++ " not found".
Definition msg_not_sellers (inscriptionId : string) : string :=
  "Inscription " ++ inscriptionId ++ " does not belong to seller".

Section Seller.
Context {lib : Lib} {seller : SellerSide}.

(** [psbt.addOutputs(outputs)]: each address is turned into its script. *)
Definition address_output (net : string) (output : Output) : Error + TxOutput :=
  match toOutputScript (o_address output) net with
  | inl e => inl e
  | inr script => inr (mkTxOutput script (o_value output))
  end.

Definition createInscriptionPSBT
    (inscriptionId sellerPublicKey sellerAddress receivePaymentAddress : string)
    (inscriptionPrice : Z) (escrowPublicKey : string) (network : Network) (chain : Chain)
    : Error + Psbt :=
  match getInscriptionUTXO inscriptionId with
  | inl e => inl e
  | inr None => inl (OrditSDKError (msg_inscription_not_found inscriptionId))
  | inr (Some inscriptionUtxo) =>
      if negb (utxo_address inscriptionUtxo =? sellerAddress)%string
      then inl (OrditSDKError (msg_not_sellers inscriptionId))
      else
        let inscriptionOutpoint :=
          utxo_txid inscriptionUtxo ++ ":" ++ string_of_nat (utxo_n inscriptionUtxo) in
        match processInputWith inscriptionUtxo sellerPublicKey network
                (Z.lor SIGHASH_ALL SIGHASH_ANYONECANPAY) with
        | inl e => inl e
        | inr input =>
            match getEscrowTaprootAddress inscriptionOutpoint escrowPublicKey network chain with
            | inl e => inl e
            | inr escrow =>
                let outputs :=
                  [mkOutput (address escrow) (utxo_sats inscriptionUtxo);
                   mkOutput receivePaymentAddress inscriptionPrice] in
                match mapE (address_output (psbt_network chain network)) outputs with
                | inl e => inl e
                | inr txOutputs => inr (mkPsbt [input] txOutputs)
                end
            end
        end
  end.

End Seller.

(** A fresh instance: no UTXOs fetched, nothing cached, nothing logged. *)
Definition new_session : Session := mkSession [] None None [].

(** ** A reference instance of the collaborators

    A small executable stand-in for the libraries and the data source, used
    to run the builder on concrete inputs. Addresses are classified by their
    prefix, the script of an address is that address behind ["s:"], coin
    selection accumulates UTXOs in order and appends a change output without
    address, and the funding estimate is [outputs + fee - inputs]. *)

Module Reference.

Definition string_of_Z (z : Z) : string := NilZero.string_of_int (Z.to_int z).

Definition address_type (addr : string) : option string :=
  if prefix "bc1p" addr then Some "p2tr"
  else if prefix "bc1q" addr then Some "p2wpkh"
  else if prefix "3" addr then Some "p2sh"
  else if prefix "1" addr then Some "p2pkh"
  else None.

Definition ref_getAddressType (addr : string) (_ : Network) : Error + string :=
  match address_type addr with
  | Some t => inr t
  | None => inl (OrditSDKError "Invalid address")
  end.

Definition script_address (script : Buffer) : string :=
  substring 2 (String.length script - 2) script.

Definition ref_getScriptType (script : Buffer) (_ : Network) : Error + ScriptTypeResponse :=
  if prefix "s:" script then
    match address_type (script_address script) with
    | Some t => inr (mkScriptTypeResponse t (Some (script_address script)))
    | None => inl (OrditSDKError "Unsupported input")
    end
  else inl (OrditSDKError "Unsupported input").

Definition ref_isP2TR (script : Buffer) (_ : Network) : bool := prefix "s:bc1p" script.

(** [pubKey.length === 32 ? pubKey : pubKey.slice(1, 33)], on hex digits. *)
Definition ref_toXOnly (publicKey : string) : Buffer :=
  if Nat.eqb (String.length publicKey) 64 then publicKey else substring 2 64 publicKey.

Definition ref_toOutputScript (addr : string) (_ : string) : Error + Buffer :=
  match address_type addr with
  | Some _ => inr ("s:" ++ addr)
  | None => inl (ExternalError (addr ++ " has no matching Script"))
  end.

Definition ref_getId (ins : list (string * nat * option Buffer)) (outs : list TxOutput)
    : string :=
  "tx[" ++
  String.concat ","
    (map (fun '(h, n, sig) =>
            h ++ ":" ++ string_of_nat n ++
            match sig with Some r => "#" ++ r | None => "" end) ins)
  ++ "|" ++
  String.concat "," (map (fun o => txo_script o ++ "=" ++ string_of_Z (txo_value o)) outs)
  ++ "]".

Definition ref_processInput (utxo : UTXO) (pubKey : string) (_ : Network)
    : Error + PsbtInput :=
  match address_type (utxo_address utxo) with
  | Some "p2tr" =>
      inr (mkPsbtInput (utxo_txid utxo) (utxo_n utxo)
             (Some (mkWitnessUtxo ("s:" ++ utxo_address utxo) (utxo_sats utxo)))
             (Some (ref_toXOnly pubKey)) None None None)
  | Some "p2wpkh" =>
      inr (mkPsbtInput (utxo_txid utxo) (utxo_n utxo)
             (Some (mkWitnessUtxo ("s:" ++ utxo_address utxo) (utxo_sats utxo)))
             None None None None)
  | Some "p2sh" =>
      inr (mkPsbtInput (utxo_txid utxo) (utxo_n utxo)
             (Some (mkWitnessUtxo ("s:" ++ utxo_address utxo) (utxo_sats utxo)))
             None None None (Some ("0014" ++ pubKey)))
  | Some _ =>
      inr (mkPsbtInput (utxo_txid utxo) (utxo_n utxo) None None None None None)
  | None => inl (OrditSDKError "invalid script pub type")
  end.

Definition dquote : string := String (ascii_of_nat 34) EmptyString.
Definition quote (s : string) : string := dquote ++ s ++ dquote.

Definition ref_JSON_stringify (fields : list (string * string)) : string :=
  "{" ++ String.concat "," (map (fun '(k, v) => quote k ++ ":" ++ quote v) fields) ++ "}".

Definition ref_buildWitnessScriptV2 (xkey : string) (envelopes : list Envelope)
    : Error + Buffer :=
  inr (xkey ++ " OP_CHECKSIG" ++
       String.concat ""
         (map (fun e => " OP_FALSE OP_IF " ++ mediaType e ++ " " ++ mediaContent e
                        ++ " OP_ENDIF") envelopes)).

Definition ref_p2tr (internalPubkey : Buffer) (net : string) (tree : Buffer * Buffer)
    : Error + Payment :=
  if Nat.eqb (String.length internalPubkey) 64 then
    let commitment := "<" ++ fst tree ++ "><" ++ snd tree ++ ">" in
    let tweaked := internalPubkey ++ commitment in
    inr (mkPayment (Some ("bc1p" ++ tweaked)) (Some ("s:bc1p" ++ tweaked)) (Some commitment))
  else inl (TypeError "Expected property internalPubkey of type Buffer(Length: 32)").

Definition input_bytes (i : CoinInput) : Z := if ci_isTaproot i then 58 else 68.

Definition ref_transactionBytes (ins : list CoinInput) (outs : list TxOutput) : Z :=
  11 + sumZ input_bytes ins + 43 * Z.of_nat (List.length outs).

Definition Qceil (q : Q) : Z := - Qfloor (- q).

Definition ref_funding (ins : list CoinInput) (outs : list TxOutput) (feeRate : Q) : Z :=
  sumZ txo_value outs + Qceil (feeRate * inject_Z (ref_transactionBytes ins outs))
  - sumZ ci_value ins.

Definition dust : Z := 546.

(** Take UTXOs in order until they cover the outputs and the fee of a
    transaction with one more (change) output; the change is dropped into the
    fee when it is dust. *)
Fixpoint accumulate (feeRate target : Z) (nouts : nat) (taken rest : list CoinInput)
    : option (list CoinInput * Z) :=
  match rest with
  | [] => None
  | u :: rest' =>
      let taken' := (taken ++ [u])%list in
      let fee := feeRate * (11 + sumZ input_bytes taken' + 43 * Z.of_nat (S nouts)) in
      if target + fee <=? sumZ ci_value taken'
      then Some (taken', sumZ ci_value taken' - target - fee)
      else accumulate feeRate target nouts taken' rest'
  end.

Definition ref_coinSelect (ins : list CoinInput) (outs : list Output) (feeRate : Z)
    (_ : string) : CoinSelectResult :=
  match accumulate feeRate (sumZ o_value outs) (List.length outs) [] ins with
  | None => mkCoinSelectResult None None
  | Some (taken, change) =>
      let targets := map (fun o => mkSelectedOutput (Some (o_address o)) (Some (o_value o)))
                         outs in
      mkCoinSelectResult (Some taken)
        (Some (if dust <? change
               then (targets ++ [mkSelectedOutput None (Some change)])%list
               else targets))
  end.

#[export] Instance refLib : Lib := {
  getAddressType := ref_getAddressType;
  getScriptType := ref_getScriptType;
  isP2TR := ref_isP2TR;
  toXOnly := ref_toXOnly;
  getNetwork := fun n => n;
  toOutputScript := ref_toOutputScript;
  getId := ref_getId;
  processInput := ref_processInput;
  JSON_stringify := ref_JSON_stringify;
  buildWitnessScriptV2 := ref_buildWitnessScriptV2;
  script_compile_checksig := fun k => k ++ " OP_CHECKSIG";
  p2tr := ref_p2tr;
  coinSelect := ref_coinSelect;
  funding := ref_funding;
  transactionBytes := ref_transactionBytes
}.

(** A data source answering from two tables. *)
Definition table_datasource (unspents : list UTXO) (index : list Inscription)
    : BaseDatasource := {|
  getUnspents := fun addr =>
    inr (Some (filter (fun u => (utxo_address u =? addr)%string) unspents));
  getInscriptions := fun outpoint =>
    inr (Some (filter (fun i => (insc_outpoint i =? outpoint)%string) index))
|}.

(** *** The example of the repository: two inscriptions, one buyer *)

Definition escrow_key : string :=
  "02e5b1a6e2f3c4d5e6f708192a3b4c5d6e7f8091a2b3c4d5e6f708192a3b4c5d6e".
Definition buyer_key : string :=
  "03a1b2c3d4e5f60718293a4b5c6d7e8f9001122334455667788990aabbccddeeff".
Definition seller_address : string := "bc1qseller".
Definition buyer_address : string := "3BuyerNestedSegwit".
Definition buyer_taproot_address : string := "bc1pbuyer".
Definition mint_txid : string :=
  "dec9881438b8c30423fe6e81ef008a328e2393f53d23873aac5b824acd701edc".

(** [createInscriptionPSBT] for the inscription at [mint_txid:n], price 1000. *)
Definition seller_psbt (n : nat) : Psbt :=
  match getEscrowTaprootAddress (mint_txid ++ ":" ++ string_of_nat n) escrow_key
          "regtest" "bitcoin" with
  | inr escrow =>
      mkPsbt
        [mkPsbtInput mint_txid n (Some (mkWitnessUtxo ("s:" ++ seller_address) 600))
           None None (Some 129) None]
        [mkTxOutput ("s:" ++ address escrow) 600;
         mkTxOutput ("s:" ++ seller_address) 1000]
  | inl _ => mkPsbt [] []
  end.

Definition example_index : list Inscription :=
  [mkInscription (mint_txid ++ ":16") seller_address;
   mkInscription (mint_txid ++ ":17") seller_address].

Definition example_unspents : list UTXO :=
  [mkUTXO "f00d00000000000000000000000000000000000000000000000000000000beef" 1 100000
     buyer_address].

Definition example_datasource : BaseDatasource :=
  table_datasource example_unspents example_index.

Definition example_cfg : Config :=
  mkConfig "regtest" "bitcoin" escrow_key [seller_psbt 16; seller_psbt 17]
    buyer_address buyer_key buyer_taproot_address (8 # 1) [].

(** *** Variations of the example *)


(** One inscription bought at the base rate of 2 sat/vB with the same extra
    output, by a buyer whose only UTXO holds [sats] satoshis. *)
Definition single_cfg : Config :=
  mkConfig "regtest" "bitcoin" escrow_key [seller_psbt 16]
    buyer_address buyer_key buyer_taproot_address (2 # 1)
    [mkOutput "bc1qmarketplace" 700].

Definition tight_datasource (sats : Z) : BaseDatasource :=
  table_datasource
    [mkUTXO "f00d00000000000000000000000000000000000000000000000000000000beef" 1 sats
       buyer_address]
    example_index.

(** The same trade with a legacy (p2pkh) buyer address. *)
Definition legacy_buyer_cfg : Config :=
  mkConfig "regtest" "bitcoin" escrow_key [seller_psbt 16; seller_psbt 17]
    "1BuyerLegacy" buyer_key buyer_taproot_address (8 # 1) [].



(** A first transaction with one taproot, one p2wpkh and one p2sh output, and
    a session in which the commitment payment and the first transaction id
    are cached. *)
Definition sample_first : Psbt :=
  mkPsbt
    [mkPsbtInput "f00d" 1 (Some (mkWitnessUtxo ("s:" ++ buyer_address) 100000))
       None None None None]
    [mkTxOutput "s:bc1pcommit" 1446; mkTxOutput "s:bc1qchange" 90000;
     mkTxOutput "s:3nested" 7000].

Definition sample_payment : Payment :=
  mkPayment (Some "bc1pcommit") (Some "s:bc1pcommit") (Some "c0ffee").

Definition sample_session : Session :=
  mkSession example_unspents (Some sample_payment) (Some "f1f1") [].

(** Coin selection that takes every input and returns the requested outputs
    as they are, and a funding estimate that always asks for one satoshi
    more. *)
Definition lavish_coinSelect (ins : list CoinInput) (outs : list Output) (_ : Z)
    (_ : string) : CoinSelectResult :=
  mkCoinSelectResult (Some ins)
    (Some (map (fun o => mkSelectedOutput (Some (o_address o)) (Some (o_value o))) outs)).

Definition hungryLib : Lib := {|
  getAddressType := ref_getAddressType;
  getScriptType := ref_getScriptType;
  isP2TR := ref_isP2TR;
  toXOnly := ref_toXOnly;
  getNetwork := fun n => n;
  toOutputScript := ref_toOutputScript;
  getId := ref_getId;
  processInput := ref_processInput;
  JSON_stringify := ref_JSON_stringify;
  buildWitnessScriptV2 := ref_buildWitnessScriptV2;
  script_compile_checksig := fun k => k ++ " OP_CHECKSIG";
  p2tr := ref_p2tr;
  coinSelect := lavish_coinSelect;
  funding := fun _ _ _ => 1;
  transactionBytes := ref_transactionBytes
|}.



(** The session of the example once the checks in front of the loop are
    done. *)
Definition example_ready : Session :=
  mkSession example_unspents None None
    [GetInscriptions (mint_txid ++ ":16"); GetInscriptions (mint_txid ++ ":17");
     GetUnspents buyer_address].

End Reference.

(** *** The seller of the example *)

Module SellerReference.
Import Reference.

(** The inscriptions [<mint_txid>i<n>] sit at [mint_txid:n], 600 satoshis
    each, on the seller's address. *)
Definition inscription_utxos : list (string * UTXO) :=
  [((mint_txid ++ "i16")%string, mkUTXO mint_txid 16 600 seller_address);
   ((mint_txid ++ "i17")%string, mkUTXO mint_txid 17 600 seller_address)].

Fixpoint lookup_utxo (id : string) (l : list (string * UTXO)) : option UTXO :=
  match l with
  | [] => None
  | (k, u) :: l' => if (k =? id)%string then Some u else lookup_utxo id l'
  end.

Definition example_seller : SellerSide := {|
  getInscriptionUTXO := fun id => inr (lookup_utxo id inscription_utxos);
  processInputWith := fun utxo pubKey net sighash =>
    match ref_processInput utxo pubKey net with
    | inl e => inl e
    | inr i =>
        inr (mkPsbtInput (hash i) (index i) (witnessUtxo i) (tapInternalKey i)
               (tapMerkleRoot i) (Some sighash) (redeemScript i))
    end
|}.

Definition seller_key : string :=
  "02aa11bb22cc33dd44ee55ff66007788990011223344556677889900aabbccddee".

(** A data source whose buyer holds nothing. *)
Definition broke_datasource : BaseDatasource := table_datasource [] example_index.

(** The buyer of the example paying from the taproot address instead, with
    the commitment payment cached. *)
Definition taproot_buyer_cfg : Config :=
  mkConfig "regtest" "bitcoin" escrow_key [seller_psbt 16; seller_psbt 17]
    buyer_taproot_address buyer_key buyer_taproot_address (8 # 1) [].

Definition taproot_buyer_session : Session :=
  mkSession
    [mkUTXO "f00d00000000000000000000000000000000000000000000000000000000beef" 1 100000
       buyer_taproot_address]
    (Some sample_payment) None [].

(** Outputs asked of a first transaction: one commitment and the CPFP
    funding. *)
Definition sample_outputs : list Output :=
  [mkOutput "bc1pcommit" 1446; mkOutput "bc1pcommit" 600].

(** A second transaction chained to output 0 of [sample_first]. *)
Definition sample_second : Psbt :=
  addInput (seller_psbt 16)
    (mkPsbtInput "f1f1" 0 (Some (mkWitnessUtxo "s:bc1pcommit" 1446))
       (Some (ref_toXOnly buyer_key)) (Some "c0ffee") (Some 1) None).

End SellerReference.

(** ** Derived notions used in the statements *)

Section Derived.
Context {lib : Lib} {datasource : BaseDatasource}.
Variable cfg : Config.

(** The inscription lookups issued for a batch, in order. *)
Definition lookups_of (psbts : list Psbt) : list string :=
  map fst (successes (map (validate_before_await cfg) psbts)).

Definition validation_outcome (psbts : list Psbt) : Outcome unit :=
  let started := map (validate_before_await cfg) psbts in
  match first_error started with
  | Some e => Throws e
  | None =>
      match mapE (validate_after_await) (successes started) with
      | inl e => Throws e
      | inr _ => Returns tt
      end
  end.

(** [continues uniqueId k c s c' s']: starting with CPFP funding [c] in
    session [s], [k] passes in a row each ask for more funding ([extraFunding
    > 0]) and leave the funding at [c'] and the session at [s']. *)
Inductive continues (uniqueId : string) : nat -> Z -> Session -> Z -> Session -> Prop :=
| continues_O c s : continues uniqueId 0 c s c s
| continues_S k c s s1 pass c' s' :
    loop_body cfg uniqueId c s = (s1, Returns pass) ->
    0 < pass_extra pass ->
    continues uniqueId k (c + pass_extra pass) s1 c' s' ->
    continues uniqueId (S k) c s c' s'.

(** All strings of a given length, and up to a given length. *)
Definition all_ascii : list ascii := map ascii_of_nat (seq 0 256).

Fixpoint strings_of_length (n : nat) : list string :=
  match n with
  | O => [EmptyString]
  | S n' => flat_map (fun s => map (fun a => String a s) all_ascii) (strings_of_length n')
  end.

Definition strings_upto (bound : nat) : list string :=
  flat_map strings_of_length (seq 0 (S bound)).

(** The address [getEscrowTaprootAddress] returns, or the empty string when
    it throws. *)
Definition escrow_address_of (key : string) (net : Network) (ch : Chain)
    (outpoint : string) : string :=
  match getEscrowTaprootAddress outpoint key net ch with
  | inr r => address r
  | inl _ => EmptyString
  end.

(** A run that is out of fuel whatever the fuel. *)
Definition runs_forever {A} (run : nat -> Session * Outcome A) : Prop :=
  forall fuel, snd (run fuel) = OutOfFuel.

(** Whether [needle] occurs in [s]. *)
Definition occurs_in (needle s : string) : bool :=
  match String.index 0 needle s with
  | Some _ => true
  | None => false
  end.

End Derived.

(** ** Derived notions for the effects of a run *)

(** The marks left by the builders, as opposed to calls on the data source. *)
Definition is_built (e : Event) : Prop :=
  match e with
  | BuiltFirst | BuiltSecond _ | BuiltThird => True
  | GetInscriptions _ | GetUnspents _ => False
  end.

(** From [s] to [s'] the buyer's UTXOs were left alone and the data source
    was not called: the log only grew by marks of transactions built. *)
Definition builds_only (s s' : Session) : Prop :=
  buyerUtxos s' = buyerUtxos s /\
  exists l, trace s' = (trace s ++ l)%list /\ Forall is_built l.

Definition quiet {A} (m : M A) : Prop := forall s, builds_only s (fst (m s)).

(** The session with the first transaction id replaced. *)
Definition with_firstTxId (id : string) (s : Session) : Session :=
  mkSession (buyerUtxos s) (buyerCommitPaymentAddress s) (Some id) (trace s).

(** The id [createFirstTransaction] caches: the one of the transaction whose
    input [i] carries the redeem script of the [i]-th selected input. *)
Definition signed_script_txid {lib : Lib} (first : Psbt) (selected : list CoinInput)
    : string :=
  getId (map (fun '(i, input) => (hash i, index i, redeemScript (ci_data input)))
           (combine (inputs first) selected))
        (txOutputs first).

(** ** Output chaining: [generateInputFromPSBTOutput] *)

Section Properties.
Context {lib : Lib} {datasource : BaseDatasource}.
Variable cfg : Config.

Lemma generateInput_inv psbt outputIndex publicKey sighash g :
  generateInputFromPSBTOutput cfg psbt outputIndex publicKey sighash = inr g ->
  exists o st,
    nth_error (txOutputs psbt) outputIndex = Some o /\
    getScriptType (txo_script o) (network cfg) = inr st /\
    (st_type st = "p2tr" \/ st_type st = "p2wpkh") /\
    g = mkPsbtInput (unsigned_txid psbt) outputIndex (Some (witness_of o))
          (if (st_type st =? "p2tr")%string then Some (toXOnly publicKey) else None)
          None (truthy_sighash sighash) None.
Proof.
  unfold generateInputFromPSBTOutput.
  destruct (nth_error (txOutputs psbt) outputIndex) as [o|]; [|discriminate].
  destruct (getScriptType (txo_script o) (network cfg)) as [e|st] eqn:Est; [discriminate|].
  destruct (st_type st =? "p2tr")%string eqn:Etr.
  - intros [= <-]. exists o, st. rewrite Etr. apply String.eqb_eq in Etr. auto.
  - destruct (st_type st =? "p2wpkh")%string eqn:Ewp; [|discriminate].
    intros [= <-]. exists o, st. rewrite Etr. apply String.eqb_eq in Ewp. auto.
Qed.

Section Dispatch.
Variables (psbt : Psbt) (outputIndex : nat) (publicKey : string) (sighash : option Z).
Variables (psbtOutput : TxOutput) (scriptType : ScriptTypeResponse).
Hypothesis Hnth : nth_error (txOutputs psbt) outputIndex = Some psbtOutput.
Hypothesis Hst : getScriptType (txo_script psbtOutput) (network cfg) = inr scriptType.

Lemma generateInput_p2tr :
  st_type scriptType = "p2tr" ->
  generateInputFromPSBTOutput cfg psbt outputIndex publicKey sighash =
  inr (mkPsbtInput (unsigned_txid psbt) outputIndex (Some (witness_of psbtOutput))
         (Some (toXOnly publicKey)) None (truthy_sighash sighash) None).
Proof.
  intros Hty. unfold generateInputFromPSBTOutput. rewrite Hnth, Hst, Hty. reflexivity.
Qed.

Lemma generateInput_p2wpkh :
  st_type scriptType = "p2wpkh" ->
  generateInputFromPSBTOutput cfg psbt outputIndex publicKey sighash =
  inr (mkPsbtInput (unsigned_txid psbt) outputIndex (Some (witness_of psbtOutput))
         None None (truthy_sighash sighash) None).
Proof.
  intros Hty. unfold generateInputFromPSBTOutput. rewrite Hnth, Hst, Hty. reflexivity.
Qed.

Lemma generateInput_unsupported :
  st_type scriptType <> "p2tr" -> st_type scriptType <> "p2wpkh" ->
  generateInputFromPSBTOutput cfg psbt outputIndex publicKey sighash =
  inl (OrditSDKError msg_unsupported_script).
Proof.
  intros Htr Hwp. unfold generateInputFromPSBTOutput. rewrite Hnth, Hst.
  apply String.eqb_neq in Htr. apply String.eqb_neq in Hwp.
  rewrite Htr, Hwp. reflexivity.
Qed.

End Dispatch.

(** C9. For every PSBT and output index that names an output, the helper
    dispatches on the script type of that output: a taproot output gives a
    descriptor with the x-only internal key and the witness script and value,
    a p2wpkh output gives the plain witness descriptor, and every other type
    fails with the unsupported-script error. *)
Theorem generateInputFromPSBTOutput_dispatch
    psbt outputIndex publicKey sighash psbtOutput scriptType :
  nth_error (txOutputs psbt) outputIndex = Some psbtOutput ->
  getScriptType (txo_script psbtOutput) (network cfg) = inr scriptType ->
  (st_type scriptType = "p2tr" ->
   generateInputFromPSBTOutput cfg psbt outputIndex publicKey sighash =
   inr (mkPsbtInput (unsigned_txid psbt) outputIndex (Some (witness_of psbtOutput))
          (Some (toXOnly publicKey)) None (truthy_sighash sighash) None)) /\
  (st_type scriptType = "p2wpkh" ->
   generateInputFromPSBTOutput cfg psbt outputIndex publicKey sighash =
   inr (mkPsbtInput (unsigned_txid psbt) outputIndex (Some (witness_of psbtOutput))
          None None (truthy_sighash sighash) None)) /\
  (st_type scriptType <> "p2tr" -> st_type scriptType <> "p2wpkh" ->
   generateInputFromPSBTOutput cfg psbt outputIndex publicKey sighash =
   inl (OrditSDKError msg_unsupported_script)).
Proof.
  intros Hnth Hst. split; [|split].
  - exact (generateInput_p2tr _ _ _ _ _ _ Hnth Hst).
  - exact (generateInput_p2wpkh _ _ _ _ _ _ Hnth Hst).
  - exact (generateInput_unsupported _ _ _ _ _ _ Hnth Hst).
Qed.

(** ** The second transaction *)

Lemma bind_returns {A B} (m : M A) (k : A -> M B) s s' b :
  bind m k s = (s', Returns b) ->
  exists s1 a, m s = (s1, Returns a) /\ k a s1 = (s', Returns b).
Proof.
  unfold bind. destruct (m s) as [s1 [a|e|]]; try discriminate.
  intros H. exists s1, a. auto.
Qed.

Lemma lift_returns {A} (r : Error + A) s s' a :
  lift r s = (s', Returns a) -> r = inr a /\ s' = s.
Proof.
  destruct r; cbn; intros [= ]; subst; auto.
Qed.

Lemma createSecondTransaction_inv firstTx outputIndex inscriptionPsbt s s' second :
  createSecondTransaction cfg firstTx outputIndex inscriptionPsbt s = (s', Returns second) ->
  exists generated payment txId,
    generateInputFromPSBTOutput cfg firstTx outputIndex (buyerPublicKey cfg)
      (Some SIGHASH_ALL) = inr generated /\
    buyerCommitPaymentAddress s = Some payment /\
    firstTxId s = Some txId /\
    second = addInput inscriptionPsbt
               (with_tapMerkleRoot (pay_hash payment) (with_hash txId generated)) /\
    s' = log (BuiltSecond outputIndex) s.
Proof.
  unfold createSecondTransaction, bind, get_session.
  destruct (generateInputFromPSBTOutput cfg firstTx outputIndex (buyerPublicKey cfg)
              (Some SIGHASH_ALL)) as [e|generated]; cbn; [discriminate|].
  destruct (buyerCommitPaymentAddress s) as [payment|]; cbn; [|discriminate].
  destruct (firstTxId s) as [txId|]; cbn; [|discriminate].
  intros [= <- <-]. exists generated, payment, txId. auto.
Qed.

(** C8. When the first transaction's output at [outputIndex] is a taproot (or
    p2wpkh) output and the session holds the buyer's commitment payment and
    the first transaction id, [createSecondTransaction] returns the seller
    PSBT with exactly one input appended: it spends that output, is marked
    SIGHASH_ALL and carries the commitment payment's merkle hash. The seller's
    inputs stay in place in front of it and the outputs are untouched. *)
Theorem createSecondTransaction_appends
    firstTx outputIndex inscriptionPsbt s psbtOutput scriptType payment txId :
  nth_error (txOutputs firstTx) outputIndex = Some psbtOutput ->
  getScriptType (txo_script psbtOutput) (network cfg) = inr scriptType ->
  st_type scriptType = "p2tr" \/ st_type scriptType = "p2wpkh" ->
  buyerCommitPaymentAddress s = Some payment ->
  firstTxId s = Some txId ->
  exists appended,
    createSecondTransaction cfg firstTx outputIndex inscriptionPsbt s =
      (log (BuiltSecond outputIndex) s,
       Returns (mkPsbt (inputs inscriptionPsbt ++ [appended]) (txOutputs inscriptionPsbt))) /\
    hash appended = txId /\
    index appended = outputIndex /\
    witnessUtxo appended = Some (witness_of psbtOutput) /\
    sighashType appended = Some SIGHASH_ALL /\
    tapMerkleRoot appended = pay_hash payment /\
    (st_type scriptType = "p2tr" ->
     tapInternalKey appended = Some (toXOnly (buyerPublicKey cfg))) /\
    (forall k input,
        nth_error (inputs inscriptionPsbt) k = Some input ->
        nth_error (inputs inscriptionPsbt ++ [appended]) k = Some input).
Proof.
  intros Hnth Hst Hty Hpay Hid.
  pose proof (generateInput_p2tr firstTx outputIndex (buyerPublicKey cfg)
                (Some SIGHASH_ALL) psbtOutput scriptType Hnth Hst) as Htr.
  pose proof (generateInput_p2wpkh firstTx outputIndex (buyerPublicKey cfg)
                (Some SIGHASH_ALL) psbtOutput scriptType Hnth Hst) as Hwp.
  assert (Hframe : forall appended k input,
             nth_error (inputs inscriptionPsbt) k = Some input ->
             nth_error (inputs inscriptionPsbt ++ [appended]) k = Some input).
  { intros appended k input Hk. rewrite nth_error_app1; [exact Hk|].
    apply nth_error_Some. congruence. }
  unfold createSecondTransaction, bind, get_session.
  destruct Hty as [Hty|Hty].
  - rewrite (Htr Hty). cbn. rewrite Hpay, Hid. cbn.
    eexists. split; [reflexivity|]. cbn. repeat split; auto.
  - rewrite (Hwp Hty). cbn. rewrite Hpay, Hid. cbn.
    eexists. split; [reflexivity|]. cbn. repeat split; auto.
    rewrite Hty. discriminate.
Qed.

(** ** Lists mapped with a throwing body *)

Lemma mapE_Forall2 {A B} (f : A -> Error + B) l bs :
  mapE f l = inr bs -> Forall2 (fun a b => f a = inr b) l bs.
Proof.
  revert bs. induction l as [|a l IH]; cbn; intros bs.
  - intros [= <-]. constructor.
  - destruct (f a) as [e|b] eqn:Ea; [discriminate|].
    destruct (mapE f l) as [e|bs']; [discriminate|].
    intros [= <-]. constructor; auto.
Qed.

Lemma mapE_length {A B} (f : A -> Error + B) l bs :
  mapE f l = inr bs -> List.length bs = List.length l.
Proof.
  intros H. apply mapE_Forall2 in H. symmetry. eapply Forall2_length; eauto.
Qed.

Lemma mapE_nth {A B} (f : A -> Error + B) l bs i a :
  mapE f l = inr bs -> nth_error l i = Some a ->
  exists b, nth_error bs i = Some b /\ f a = inr b.
Proof.
  intros H. apply mapE_Forall2 in H. revert i.
  induction H as [|x y l bs Hxy _ IH]; intros [|i]; cbn; try discriminate.
  - intros [= <-]. eauto.
  - apply IH.
Qed.

Lemma mapE_total {A B} (f : A -> Error + B) (g : A -> B) l :
  (forall a, In a l -> f a = inr (g a)) -> mapE f l = inr (map g l).
Proof.
  induction l as [|a l IH]; cbn; intros H; [reflexivity|].
  rewrite (H a (or_introl eq_refl)), IH; auto.
Qed.




(** ** The commitment-funding outputs *)

Lemma firstTransactionOutputs_of_eq payment script buyerCommitmentAddress CPFPFunding :
  pay_output payment = Some script ->
  firstTransactionOutputs_of cfg (Some payment) buyerCommitmentAddress CPFPFunding =
  inr (map (fun psbt =>
              mkOutput buyerCommitmentAddress
                (calculateFundingAmount (addInput psbt (dummy_input cfg payment script))
                   (inject_Z BASE_FEERATE) + dummyAmount))
           (inscriptionsPsbts cfg)
       ++ [mkOutput buyerCommitmentAddress CPFPFunding])%list.
Proof.
  intros Hout. unfold firstTransactionOutputs_of.
  erewrite mapE_total; [reflexivity|].
  intros psbt _. unfold commitment_output, with_dummy_input. rewrite Hout. reflexivity.
Qed.

(** ** Validation of the seller PSBTs *)

Lemma logs_nil s : logs [] s = s.
Proof. destruct s. unfold logs. cbn. now rewrite app_nil_r. Qed.

Lemma logs_log e es s : logs es (log e s) = logs (e :: es) s.
Proof. unfold logs, log. cbn. now rewrite <- app_assoc. Qed.

Lemma emit_all_run es s : emit_all es s = (logs es s, Returns tt).
Proof.
  revert s. induction es as [|e es IH]; intros s; cbn.
  - now rewrite logs_nil.
  - unfold bind, emit. rewrite IH, logs_log. reflexivity.
Qed.

Lemma validate_run psbts s :
  validateInscriptionPsbts cfg psbts s =
  (logs (map GetInscriptions (lookups_of cfg psbts)) s, validation_outcome cfg psbts).
Proof.
  unfold validateInscriptionPsbts, validation_outcome, lookups_of, bind.
  rewrite emit_all_run, map_map.
  destruct (first_error _); [reflexivity|].
  destruct (mapE _ _); reflexivity.
Qed.

Lemma validation_outcome_cons_ok p psbts :
  validate_one cfg p = inr tt ->
  validation_outcome cfg (p :: psbts) = validation_outcome cfg psbts.
Proof.
  unfold validate_one, validation_outcome. cbn.
  destruct (validate_before_await cfg p) as [e|q]; [discriminate|]. cbn.
  intros ->. destruct (first_error _); [reflexivity|].
  destruct (mapE _ _) as [e|us]; reflexivity.
Qed.

Lemma validation_outcome_returns psbts :
  validation_outcome cfg psbts = Returns tt <->
  Forall (fun p => validate_one cfg p = inr tt) psbts.
Proof.
  induction psbts as [|p psbts IH].
  - split; [constructor|reflexivity].
  - split.
    + intros H.
      assert (Hp : validate_one cfg p = inr tt).
      { revert H. unfold validate_one, validation_outcome. cbn.
        destruct (validate_before_await cfg p) as [e|q]; cbn; [discriminate|].
        destruct (first_error _); [discriminate|].
        destruct (validate_after_await q) as [e|[]]; [discriminate|reflexivity]. }
      constructor; [exact Hp|]. apply IH. now rewrite <- (validation_outcome_cons_ok p).
    + intros H. inversion H; subst.
      rewrite validation_outcome_cons_ok by assumption. now apply IH.
Qed.

Lemma validation_outcome_total psbts : validation_outcome cfg psbts <> OutOfFuel.
Proof.
  unfold validation_outcome. destruct (first_error _); [discriminate|].
  destruct (mapE _ _); discriminate.
Qed.









(** ** The checks in front of the loop *)

Lemma buildTransactions_unsupported_buyer fuel uniqueId s t :
  inscriptionsPsbts cfg <> [] ->
  getAddressType (buyerAddress cfg) (network cfg) = inr t ->
  supported_buyer_type t = false ->
  buildTransactions cfg fuel uniqueId s =
  (s, Throws (OrditSDKError (msg_buyer_address (buyerAddress cfg)))).
Proof.
  intros Hne Ht Hty. unfold buildTransactions.
  destruct (inscriptionsPsbts cfg); [contradiction|].
  unfold bind. rewrite Ht. cbn. rewrite Hty. reflexivity.
Qed.

(** C6 (as amended). With at least one seller PSBT, a buyer address whose type
    is none of p2sh, p2wsh, p2wpkh, p2tr (a legacy p2pkh address in
    particular) makes [buildTransactions] throw "Buyer address <address> must
    be a segwit/taproot/p2sh address" with the session untouched: no data
    source call, so no UTXO fetch, has happened. *)
Theorem buildTransactions_rejects_legacy_buyer fuel uniqueId s t :
  inscriptionsPsbts cfg <> [] ->
  getAddressType (buyerAddress cfg) (network cfg) = inr t ->
  supported_buyer_type t = false ->
  supported_buyer_type "p2pkh" = false /\
  buildTransactions cfg fuel uniqueId s =
  (s, Throws (OrditSDKError
                ("Buyer address " ++ buyerAddress cfg
                 ++ " must be a segwit/taproot/p2sh address"))).
Proof.
  intros Hne Ht Hty. split; [reflexivity|].
  now apply buildTransactions_unsupported_buyer with (t := t).
Qed.





(** ** One pass of the loop *)

Lemma getBuyerCommitAddress_inv uniqueId s s' addr :
  getBuyerCommitAddress cfg uniqueId s = (s', Returns addr) ->
  exists payment,
    s' = mkSession (buyerUtxos s) (Some payment) (firstTxId s) (trace s) /\
    pay_address payment = Some addr.
Proof.
  unfold getBuyerCommitAddress. intros H.
  apply bind_returns in H as (s1 & dataScript & H1 & H).
  apply lift_returns in H1 as [_ ->].
  apply bind_returns in H as (s1 & payment & H1 & H).
  apply lift_returns in H1 as [_ ->].
  destruct (pay_address payment) as [[|a0 a]|] eqn:Ea; cbn in H; try discriminate.
  injection H as <- <-. exists payment. auto.
Qed.

Lemma createFirstTransaction_inv outputs s s' first :
  createFirstTransaction cfg outputs s = (s', Returns first) ->
  exists prepared res_inputs res_outputs,
    mapE (prepare_utxo cfg) (buyerUtxos s) = inr prepared /\
    cs_inputs (coinSelect prepared outputs BASE_FEERATE (buyerAddress cfg)) = Some res_inputs /\
    cs_outputs (coinSelect prepared outputs BASE_FEERATE (buyerAddress cfg)) = Some res_outputs /\
    res_outputs <> [] /\
    mapE (first_tx_input prepared) res_inputs = inr (inputs first) /\
    mapE (first_tx_output cfg) res_outputs = inr (txOutputs first) /\
    buyerUtxos s' = buyerUtxos s /\
    buyerCommitPaymentAddress s' = buyerCommitPaymentAddress s /\
    firstTxId s' <> None.
Proof.
  unfold createFirstTransaction. intros H.
  apply bind_returns in H as (s1 & s0 & H1 & H). injection H1 as <- <-.
  apply bind_returns in H as (s1 & ins & H1 & H).
  apply lift_returns in H1 as [Hins ->].
  destruct (cs_inputs _) as [[|ri res_inputs]|] eqn:Eci; try discriminate.
  destruct (cs_outputs _) as [[|ro res_outputs]|] eqn:Eco; try discriminate.
  apply bind_returns in H as (s1 & psbtInputs & H1 & H).
  apply lift_returns in H1 as [Hpi ->].
  apply bind_returns in H as (s1 & psbtOutputs & H1 & H).
  apply lift_returns in H1 as [Hpo ->].
  cbn in H. injection H as <- <-.
  exists ins, (ri :: res_inputs), (ro :: res_outputs). cbn.
  repeat split; auto; discriminate.
Qed.

(** The second transactions, built left to right from position [k] on. *)
Lemma second_transactions_inv firstTx psbts :
  forall k s s' seconds,
    mapM (fun '(index, inscription) =>
            createSecondTransaction cfg firstTx index inscription)
         (indexed_from k psbts) s = (s', Returns seconds) ->
    buyerUtxos s' = buyerUtxos s /\
    buyerCommitPaymentAddress s' = buyerCommitPaymentAddress s /\
    firstTxId s' = firstTxId s /\
    Forall2 (fun '(index, inscription) second =>
               exists generated payment txId,
                 generateInputFromPSBTOutput cfg firstTx index (buyerPublicKey cfg)
                   (Some SIGHASH_ALL) = inr generated /\
                 buyerCommitPaymentAddress s = Some payment /\
                 firstTxId s = Some txId /\
                 second = addInput inscription
                            (with_tapMerkleRoot (pay_hash payment)
                               (with_hash txId generated)))
            (indexed_from k psbts) seconds.
Proof.
  induction psbts as [|p psbts IH]; intros k s s' seconds; cbn.
  - intros [= <- <-]. repeat split. constructor.
  - intros H. apply bind_returns in H as (s1 & second & H1 & H).
    apply bind_returns in H as (s2 & rest & H2 & H).
    injection H as <- <-.
    apply createSecondTransaction_inv in H1
      as (generated & payment & txId & Hg & Hpay & Hid & -> & ->).
    apply IH in H2 as (Hu & Hp & Hi & Hall). cbn in Hu, Hp, Hi.
    repeat split; try congruence.
    constructor.
    + exists generated, payment, txId. auto.
    + eapply Forall2_impl; [|exact Hall]. intros [i q] second'.
      cbn. intros (g' & pay' & id' & Hg' & Hpay' & Hid' & ->).
      exists g', payment, txId. repeat split; congruence.
Qed.

Lemma createWithdrawTransaction_inv firstTx outputIndex seconds s s' third :
  createWithdrawTransaction cfg firstTx outputIndex seconds s = (s', Returns third) ->
  exists escrowInputs receiveOutputs extras fundingInput payment h txId,
    mapE (escrow_input cfg) seconds = inr escrowInputs /\
    mapE (receive_output cfg) escrowInputs = inr receiveOutputs /\
    mapE (extra_output cfg) (extraOutputs cfg) = inr extras /\
    generateInputFromPSBTOutput cfg firstTx outputIndex (buyerPublicKey cfg)
      (Some SIGHASH_ALL) = inr fundingInput /\
    buyerCommitPaymentAddress s = Some payment /\ pay_hash payment = Some h /\
    firstTxId s = Some txId /\
    third = mkPsbt
              (escrowInputs ++ [with_tapMerkleRoot (Some h) (with_hash txId fundingInput)])
              (receiveOutputs ++ extras) /\
    s' = log BuiltThird s.
Proof.
  unfold createWithdrawTransaction. intros H.
  apply bind_returns in H as (s1 & s0 & H1 & H). injection H1 as <- <-.
  apply bind_returns in H as (s1 & escrowInputs & H1 & H).
  apply lift_returns in H1 as [He ->].
  apply bind_returns in H as (s1 & receiveOutputs & H1 & H).
  apply lift_returns in H1 as [Hr ->].
  apply bind_returns in H as (s1 & extras & H1 & H).
  apply lift_returns in H1 as [Hx ->].
  apply bind_returns in H as (s1 & fundingInput & H1 & H).
  apply lift_returns in H1 as [Hf ->].
  destruct (buyerCommitPaymentAddress s) as [payment|] eqn:Hpay; [|discriminate].
  destruct (pay_hash payment) as [h|] eqn:Hh; [|discriminate].
  destruct (firstTxId s) as [txId|] eqn:Hid; [|discriminate].
  cbn in H. injection H as <- <-.
  exists escrowInputs, receiveOutputs, extras, fundingInput, payment, h, txId.
  repeat split; auto.
Qed.

Lemma loop_body_inv uniqueId CPFPFunding s s' pass :
  loop_body cfg uniqueId CPFPFunding s = (s', Returns pass) ->
  exists buyerCommitmentAddress payment s1 outs first s2 seconds s3 third,
    getBuyerCommitAddress cfg uniqueId s = (s1, Returns buyerCommitmentAddress) /\
    buyerCommitPaymentAddress s1 = Some payment /\
    firstTransactionOutputs_of cfg (Some payment) buyerCommitmentAddress CPFPFunding
      = inr outs /\
    createFirstTransaction cfg outs s1 = (s2, Returns first) /\
    mapM (fun '(index, inscription) =>
            createSecondTransaction cfg first index inscription)
         (indexed (inscriptionsPsbts cfg)) s2 = (s3, Returns seconds) /\
    createWithdrawTransaction cfg first (List.length outs - 1) seconds s3
      = (s', Returns third) /\
    pass = mkPass (mkBuildTransactionsResponse first seconds third)
             (calculateFundingAmount third (CPFPFeeRate_of cfg first seconds third)).
Proof.
  unfold loop_body. intros H.
  apply bind_returns in H as (s1 & addr & Haddr & H).
  apply bind_returns in H as (s1' & s0 & H1 & H). injection H1 as <- <-.
  apply bind_returns in H as (s1' & outs & H1 & H).
  apply lift_returns in H1 as [Houts ->].
  apply bind_returns in H as (s2 & first & Hfirst & H).
  apply bind_returns in H as (s3 & seconds & Hseconds & H).
  apply bind_returns in H as (s4 & third & Hthird & H).
  injection H as <- <-.
  destruct (getBuyerCommitAddress_inv _ _ _ _ Haddr) as (payment & Hs1 & _).
  exists addr, payment, s1, outs, first, s2, seconds, s3, third.
  repeat split; auto.
  - rewrite Hs1. reflexivity.
  - rewrite Hs1 in Houts. exact Houts.
Qed.

(** ** The fee-convergence loop *)

Lemma fee_loop_returns uniqueId fuel :
  forall c s s' r,
    fee_loop cfg fuel uniqueId c s = (s', Returns r) ->
    exists k c1 s1 pass,
      (k < fuel)%nat /\
      continues cfg uniqueId k c s c1 s1 /\
      loop_body cfg uniqueId c1 s1 = (s', Returns pass) /\
      pass_extra pass <= 0 /\
      pass_txs pass = r.
Proof.
  induction fuel as [|fuel IH]; intros c s s' r; cbn; [discriminate|].
  intros H. apply bind_returns in H as (s1 & pass & Hpass & H).
  destruct (0 <? pass_extra pass) eqn:Hx.
  - apply IH in H as (k & c1 & s2 & pass' & Hk & Hc & Hb & Hle & Hr).
    exists (S k), c1, s2, pass'. repeat split; auto; try lia.
    econstructor; eauto. now apply Z.ltb_lt.
  - injection H as <- <-. exists 0%nat, c, s, pass.
    apply Z.ltb_ge in Hx.
    split; [lia|]. split; [constructor|]. auto.
Qed.

Lemma fee_loop_converges uniqueId k :
  forall fuel c s c1 s1 s' pass,
    continues cfg uniqueId k c s c1 s1 ->
    loop_body cfg uniqueId c1 s1 = (s', Returns pass) ->
    pass_extra pass <= 0 ->
    (k < fuel)%nat ->
    fee_loop cfg fuel uniqueId c s = (s', Returns (pass_txs pass)).
Proof.
  induction k as [|k IH]; intros fuel c s c1 s1 s' pass Hc Hb Hle Hk.
  - inversion Hc; subst. destruct fuel as [|fuel]; [lia|].
    cbn. unfold bind. rewrite Hb.
    apply Z.ltb_ge in Hle. now rewrite Hle.
  - inversion Hc as [|? ? ? s2 pass0 ? ? Hb0 Hx Hc']; subst.
    destruct fuel as [|fuel]; [lia|].
    cbn. unfold bind. rewrite Hb0.
    apply Z.ltb_lt in Hx. rewrite Hx.
    eapply IH; eauto. lia.
Qed.

Lemma fee_loop_running uniqueId k :
  forall c s c1 s1,
    continues cfg uniqueId k c s c1 s1 ->
    fee_loop cfg k uniqueId c s = (s1, OutOfFuel).
Proof.
  induction k as [|k IH]; intros c s c1 s1 Hc.
  - inversion Hc; subst. reflexivity.
  - inversion Hc as [|? ? ? s2 pass0 ? ? Hb0 Hx Hc']; subst.
    cbn. unfold bind. rewrite Hb0.
    apply Z.ltb_lt in Hx. rewrite Hx. eapply IH; eassumption.
Qed.

Lemma fee_loop_throws uniqueId fuel :
  forall c s s' e,
    fee_loop cfg fuel uniqueId c s = (s', Throws e) ->
    exists k c1 s1,
      (k < fuel)%nat /\
      continues cfg uniqueId k c s c1 s1 /\
      loop_body cfg uniqueId c1 s1 = (s', Throws e).
Proof.
  induction fuel as [|fuel IH]; intros c s s' e; cbn; [discriminate|].
  unfold bind. destruct (loop_body cfg uniqueId c s) as [s1 [pass|e'|]] eqn:Hb.
  - destruct (0 <? pass_extra pass) eqn:Hx; [|discriminate].
    intros H. apply IH in H as (k & c1 & s2 & Hk & Hc & Hb').
    exists (S k), c1, s2. repeat split; auto; try lia.
    econstructor; eauto. now apply Z.ltb_lt.
  - intros [= <- <-]. exists 0%nat, c, s.
    split; [lia|]. split; [constructor|]. auto.
  - discriminate.
Qed.

(** C1 (as amended). The loop returns exactly when, after some number of
    passes that each asked for more funding, a pass computes [extraFunding <=
    0]; it then returns the transactions of that pass, for any fuel beyond
    that number of passes. As long as passes ask for more funding the loop is
    still running, whatever their number: there is no iteration bound. The
    loop throws nothing of its own: an error is the error of a builder in the
    current pass. *)
Theorem fee_loop_exit uniqueId c s :
  (forall fuel s' r,
      fee_loop cfg fuel uniqueId c s = (s', Returns r) <->
      exists k c1 s1 pass,
        (k < fuel)%nat /\
        continues cfg uniqueId k c s c1 s1 /\
        loop_body cfg uniqueId c1 s1 = (s', Returns pass) /\
        pass_extra pass <= 0 /\
        pass_txs pass = r) /\
  (forall k c1 s1,
      continues cfg uniqueId k c s c1 s1 ->
      fee_loop cfg k uniqueId c s = (s1, OutOfFuel)) /\
  (forall fuel s' e,
      fee_loop cfg fuel uniqueId c s = (s', Throws e) ->
      exists k c1 s1,
        (k < fuel)%nat /\
        continues cfg uniqueId k c s c1 s1 /\
        loop_body cfg uniqueId c1 s1 = (s', Throws e)).
Proof.
  split; [|split].
  - intros fuel s' r. split.
    + apply fee_loop_returns.
    + intros (k & c1 & s1 & pass & Hk & Hc & Hb & Hle & <-).
      eapply fee_loop_converges; eauto.
  - intros k c1 s1. apply fee_loop_running.
  - intros fuel. apply fee_loop_throws.
Qed.

Lemma buildTransactions_returns fuel uniqueId s s' r :
  buildTransactions cfg fuel uniqueId s = (s', Returns r) ->
  exists s0, fee_loop cfg fuel uniqueId 600 s0 = (s', Returns r).
Proof.
  unfold buildTransactions. destruct (inscriptionsPsbts cfg); [discriminate|].
  intros H. apply bind_returns in H as (s1 & t & _ & H).
  destruct (negb (supported_buyer_type t)); [discriminate|].
  apply bind_returns in H as (s2 & [] & _ & H).
  apply bind_returns in H as (s3 & [] & _ & H).
  eauto.
Qed.

Lemma buildTransactions_final_pass fuel uniqueId s s' r :
  buildTransactions cfg fuel uniqueId s = (s', Returns r) ->
  exists c1 s1 pass,
    loop_body cfg uniqueId c1 s1 = (s', Returns pass) /\
    pass_extra pass <= 0 /\ pass_txs pass = r.
Proof.
  intros H. apply buildTransactions_returns in H as (s0 & H).
  apply fee_loop_returns in H as (k & c1 & s1 & pass & _ & _ & Hb & Hle & Hr).
  exists c1, s1, pass. auto.
Qed.

(** ** Shape and fees of the chain *)

Lemma Forall2_indexed_nth {A B} (P : nat * A -> B -> Prop) (l : list A) :
  forall k l' i a b,
    Forall2 P (indexed_from k l) l' ->
    nth_error l i = Some a -> nth_error l' i = Some b ->
    P ((k + i)%nat, a) b.
Proof.
  induction l as [|x l IH]; intros k l' i a b HF Ha Hb.
  - destruct i; discriminate.
  - cbn in HF. inversion HF as [|? y ? l'' Hxy HF']; subst.
    destruct i as [|i]; cbn in Ha, Hb.
    + injection Ha as <-. injection Hb as <-. now rewrite Nat.add_0_r.
    + replace (k + S i)%nat with (S k + i)%nat by lia. eapply IH; eauto.
Qed.


Lemma indexed_from_length {A} (l : list A) k : List.length (indexed_from k l) = List.length l.
Proof. revert k. induction l; cbn; intros; auto. Qed.



Lemma requested_outputs_length payment addr c outs :
  firstTransactionOutputs_of cfg payment addr c = inr outs ->
  List.length outs = S (List.length (inscriptionsPsbts cfg)).
Proof.
  unfold firstTransactionOutputs_of.
  destruct (mapE _ _) as [e|outs'] eqn:Em; [discriminate|].
  intros [= <-]. rewrite length_app. apply mapE_length in Em. cbn. lia.
Qed.


(** C10. In every pass of the loop, the output requested for inscription [i]
    goes to the commitment address with value the funding estimated at
    [BASE_FEERATE] = 2 for the seller PSBT extended by the dummy taproot input
    (600 satoshis on the commitment script), plus the 600-satoshi dummy
    amount; and when coin selection returns that value at position [i], output
    [i] of the first transaction carries it, exceeding the estimate by exactly
    600. *)
Theorem commitment_outputs_pad uniqueId CPFPFunding s s' pass i psbt :
  loop_body cfg uniqueId CPFPFunding s = (s', Returns pass) ->
  nth_error (inscriptionsPsbts cfg) i = Some psbt ->
  exists payment script buyerCommitmentAddress requested prepared selected,
    pay_output payment = Some script /\
    pay_address payment = Some buyerCommitmentAddress /\
    BASE_FEERATE = 2 /\
    witnessUtxo (dummy_input cfg payment script) = Some (mkWitnessUtxo script 600) /\
    tapInternalKey (dummy_input cfg payment script) = Some (toXOnly (buyerPublicKey cfg)) /\
    let estimate :=
      calculateFundingAmount (addInput psbt (dummy_input cfg payment script))
        (inject_Z BASE_FEERATE) in
    nth_error requested i = Some (mkOutput buyerCommitmentAddress (estimate + 600)) /\
    List.length requested = S (List.length (inscriptionsPsbts cfg)) /\
    cs_outputs (coinSelect prepared requested BASE_FEERATE (buyerAddress cfg))
      = Some selected /\
    (forall returned,
        nth_error selected i = Some returned ->
        so_value returned = Some (estimate + 600) ->
        exists o,
          nth_error (txOutputs (firstTransactionPSBTB64 (pass_txs pass))) i = Some o /\
          txo_value o = estimate + 600 /\
          txo_value o - estimate = 600).
Proof.
  intros H Hi.
  apply loop_body_inv in H
    as (addr & payment & s1 & outs & first & s2 & seconds & s3 & third
        & Haddr & Hpay & Houts & Hfirst & _ & _ & ->).
  apply getBuyerCommitAddress_inv in Haddr as (payment' & Hs1 & Hpa).
  rewrite Hs1 in Hpay. cbn in Hpay. injection Hpay as ->.
  assert (Hscript : exists script, pay_output payment = Some script).
  { unfold firstTransactionOutputs_of in Houts.
    destruct (mapE _ _) as [e|outs'] eqn:Em; [discriminate|].
    destruct (mapE_nth _ _ _ _ _ Em Hi) as (out & _ & Hout).
    unfold commitment_output, with_dummy_input in Hout.
    destruct (pay_output payment) as [script|]; [eauto|discriminate]. }
  destruct Hscript as [script Hscript].
  rewrite (firstTransactionOutputs_of_eq payment script addr CPFPFunding Hscript) in Houts.
  injection Houts as <-.
  apply createFirstTransaction_inv in Hfirst
    as (prepared & res_inputs & res_outputs & _ & _ & Hsel & _ & _ & Hmap & _).
  exists payment, script, addr. eexists. exists prepared, res_outputs.
  repeat split; try eassumption.
  - rewrite nth_error_app1.
    + rewrite nth_error_map, Hi. reflexivity.
    + rewrite length_map. apply nth_error_Some. congruence.
  - rewrite length_app, length_map. cbn. lia.
  - intros returned Hret Hval.
    destruct (mapE_nth _ _ _ _ _ Hmap Hret) as (o & Ho & Hfo).
    exists o. split; [exact Ho|].
    unfold first_tx_output in Hfo. rewrite Hval in Hfo.
    set (estimate := calculateFundingAmount _ _) in *.
    assert (Hv : txo_value o = estimate + 600).
    { destruct (estimate + 600); try discriminate;
        destruct (toOutputScript _ _); try discriminate;
        now injection Hfo as <-. }
    split; [exact Hv|lia].
Qed.




End Properties.

(** ** The escrow address *)

Section Escrow.
Context {lib : Lib}.

Lemma string_of_nat_inj a b : string_of_nat a = string_of_nat b -> a = b.
Proof.
  unfold string_of_nat. intros H.
  apply (f_equal NilEmpty.uint_of_string) in H.
  rewrite !NilEmpty.usu in H. injection H as H.
  apply (f_equal Nat.of_uint) in H.
  now rewrite !DecimalNat.Unsigned.of_to in H.
Qed.

Lemma in_all_ascii a : In a all_ascii.
Proof.
  unfold all_ascii. rewrite <- (ascii_nat_embedding a).
  apply in_map, in_seq. pose proof (nat_ascii_bounded a). lia.
Qed.

Lemma in_strings_of_length s : In s (strings_of_length (String.length s)).
Proof.
  induction s as [|a s IH]; cbn [String.length strings_of_length]; [now left|].
  apply in_flat_map. exists s. split; [exact IH|].
  apply (in_map (fun a => String a s)), in_all_ascii.
Qed.

Lemma in_strings_upto bound s :
  (String.length s <= bound)%nat -> In s (strings_upto bound).
Proof.
  intros H. unfold strings_upto. apply in_flat_map.
  exists (String.length s). split; [apply in_seq; lia|apply in_strings_of_length].
Qed.

(** Among the images of a duplicate-free list either two collide or all are
    distinct. *)
Lemma collision_or_NoDup {A} (f : A -> string) (l : list A) :
  NoDup l ->
  (exists x y, In x l /\ In y l /\ x <> y /\ f x = f y) \/ NoDup (map f l).
Proof.
  induction 1 as [|a l Ha Hl IH]; cbn.
  - right. constructor.
  - destruct IH as [(x & y & Hx & Hy & Hxy & Hf)|IH].
    + left. exists x, y. auto.
    + destruct (in_dec string_dec (f a) (map f l)) as [Hin|Hin].
      * left. apply in_map_iff in Hin as (y & Hy & Hyl).
        exists a, y. repeat split; auto. intros ->. contradiction.
      * right. now constructor.
Qed.

(** No library with addresses of bounded length keeps the escrow addresses
    of all outpoints apart: if the helper succeeds on the outpoints
    [zero_hash:n], two of them share their address. *)
Lemma escrow_addresses_collide key net ch bound :
  (forall outpoint r,
      getEscrowTaprootAddress outpoint key net ch = inr r ->
      (String.length (address r) <= bound)%nat) ->
  (forall n, exists r,
      getEscrowTaprootAddress (zero_hash ++ ":" ++ string_of_nat n) key net ch = inr r) ->
  exists o1 o2 r1 r2,
    o1 <> o2 /\
    getEscrowTaprootAddress o1 key net ch = inr r1 /\
    getEscrowTaprootAddress o2 key net ch = inr r2 /\
    address r1 = address r2.
Proof.
  intros Hbound Hok.
  set (outpoint n := zero_hash ++ ":" ++ string_of_nat n).
  set (f n := escrow_address_of key net ch (outpoint n)).
  set (l := seq 0 (S (List.length (strings_upto bound)))).
  destruct (collision_or_NoDup f l (seq_NoDup _ _)) as [(x & y & _ & _ & Hxy & Hf)|Hnd].
  - destruct (Hok x) as [r1 H1], (Hok y) as [r2 H2].
    exists (outpoint x), (outpoint y), r1, r2. repeat split; auto.
    + unfold outpoint. intros H. apply Hxy, string_of_nat_inj.
      unfold zero_hash in H. cbn in H. now inversion H.
    + unfold f, escrow_address_of, outpoint in Hf. now rewrite H1, H2 in Hf.
  - exfalso. apply NoDup_incl_length with (l' := strings_upto bound) in Hnd.
    + rewrite length_map in Hnd. unfold l in Hnd. rewrite length_seq in Hnd. lia.
    + intros a Ha. apply in_map_iff in Ha as (n & <- & _).
      apply in_strings_upto. unfold f, escrow_address_of.
      destruct (Hok n) as [r Hr]. fold (outpoint n) in Hr. rewrite Hr. eauto.
Qed.


End Escrow.

(** ** Runs that do not converge *)

Section Unbounded.
Context {lib : Lib} {datasource : BaseDatasource}.
Variable cfg : Config.

Lemma buildTransactions_enters_loop fuel uniqueId s t s1 s2 :
  inscriptionsPsbts cfg <> [] ->
  getAddressType (buyerAddress cfg) (network cfg) = inr t ->
  supported_buyer_type t = true ->
  validateInscriptionPsbts cfg (inscriptionsPsbts cfg) s = (s1, Returns tt) ->
  getBuyerUtxos cfg s1 = (s2, Returns tt) ->
  buildTransactions cfg fuel uniqueId s = fee_loop cfg fuel uniqueId 600 s2.
Proof.
  intros Hne Ht Hty Hv Hu. unfold buildTransactions.
  destruct (inscriptionsPsbts cfg); [contradiction|].
  unfold bind at 1. rewrite Ht. cbn [lift ret]. rewrite Hty. cbn [negb].
  unfold bind at 1. rewrite Hv. unfold bind at 1. rewrite Hu. reflexivity.
Qed.

(** If every pass from an invariant state asks for more funding and restores
    the invariant, the loop is out of fuel whatever the fuel. *)
Lemma fee_loop_never_exits uniqueId (Inv : Z -> Session -> Prop) :
  (forall c s, Inv c s ->
     exists s' pass,
       loop_body cfg uniqueId c s = (s', Returns pass) /\
       0 < pass_extra pass /\ Inv (c + pass_extra pass) s') ->
  forall fuel c s, Inv c s -> snd (fee_loop cfg fuel uniqueId c s) = OutOfFuel.
Proof.
  intros Hstep fuel. induction fuel as [|fuel IH]; intros c s HI; [reflexivity|].
  destruct (Hstep c s HI) as (s' & pass & Hb & Hx & HI').
  cbn. unfold bind. rewrite Hb. apply Z.ltb_lt in Hx. rewrite Hx. now apply IH.
Qed.

End Unbounded.
(** ** What a run does to the session *)

Section Effects.
Context {lib : Lib} {datasource : BaseDatasource}.
Variable cfg : Config.

Lemma builds_only_refl s : builds_only s s.
Proof. split; [reflexivity|]. exists []. split; [now rewrite app_nil_r|constructor]. Qed.

Lemma builds_only_trans s1 s2 s3 :
  builds_only s1 s2 -> builds_only s2 s3 -> builds_only s1 s3.
Proof.
  intros [Hu1 (l1 & Ht1 & Hl1)] [Hu2 (l2 & Ht2 & Hl2)]. split; [congruence|].
  exists (l1 ++ l2)%list. split.
  - now rewrite Ht2, Ht1, app_assoc.
  - apply Forall_app. auto.
Qed.

Lemma quiet_ret {A} (a : A) : quiet (ret a).
Proof. intros s. apply builds_only_refl. Qed.

Lemma quiet_throw {A} (e : Error) : quiet (@throw A e).
Proof. intros s. apply builds_only_refl. Qed.

Lemma quiet_lift {A} (r : Error + A) : quiet (lift r).
Proof. destruct r; [apply quiet_throw|apply quiet_ret]. Qed.

Lemma quiet_get_session : quiet get_session.
Proof. intros s. apply builds_only_refl. Qed.

Lemma quiet_bind {A B} (m : M A) (k : A -> M B) :
  quiet m -> (forall a, quiet (k a)) -> quiet (bind m k).
Proof.
  intros Hm Hk s. unfold bind. specialize (Hm s).
  destruct (m s) as [s1 [a|e|]]; cbn in *; auto.
  eapply builds_only_trans; [exact Hm|apply Hk].
Qed.

Lemma quiet_emit e : is_built e -> quiet (emit e).
Proof.
  intros He s. split; [reflexivity|]. exists [e]. split; [reflexivity|].
  now constructor.
Qed.

Lemma quiet_set_firstTxId id : quiet (set_firstTxId id).
Proof. intros s. split; [reflexivity|]. exists []. cbn. now rewrite app_nil_r. Qed.

Lemma quiet_set_payment p : quiet (set_buyerCommitPaymentAddress p).
Proof. intros s. split; [reflexivity|]. exists []. cbn. now rewrite app_nil_r. Qed.

Lemma quiet_mapM {A B} (f : A -> M B) l : (forall a, quiet (f a)) -> quiet (mapM f l).
Proof.
  intros Hf. induction l as [|a l IH]; cbn; [apply quiet_ret|].
  apply quiet_bind; [apply Hf|]. intros b.
  apply quiet_bind; [exact IH|]. intros bs. apply quiet_ret.
Qed.

Ltac quiet_step :=
  first
    [ apply quiet_ret | apply quiet_throw | apply quiet_lift | apply quiet_get_session
    | apply quiet_set_firstTxId | apply quiet_set_payment
    | apply quiet_emit; exact I
    | apply quiet_bind; [|intros ?]
    | match goal with
      | |- quiet (match ?x with _ => _ end) => destruct x
      end ].

Lemma quiet_getBuyerCommitAddress uniqueId : quiet (getBuyerCommitAddress cfg uniqueId).
Proof. unfold getBuyerCommitAddress. repeat quiet_step. Qed.

Lemma quiet_createFirstTransaction outputs : quiet (createFirstTransaction cfg outputs).
Proof. unfold createFirstTransaction. repeat quiet_step. Qed.

Lemma quiet_createSecondTransaction firstTx i p :
  quiet (createSecondTransaction cfg firstTx i p).
Proof. unfold createSecondTransaction. repeat quiet_step. Qed.

Lemma quiet_createWithdrawTransaction firstTx i seconds :
  quiet (createWithdrawTransaction cfg firstTx i seconds).
Proof. unfold createWithdrawTransaction. repeat quiet_step. Qed.

Lemma quiet_loop_body uniqueId c : quiet (loop_body cfg uniqueId c).
Proof.
  unfold loop_body.
  apply quiet_bind; [apply quiet_getBuyerCommitAddress|intros addr].
  apply quiet_bind; [apply quiet_get_session|intros s0].
  apply quiet_bind; [apply quiet_lift|intros outs].
  apply quiet_bind; [apply quiet_createFirstTransaction|intros first].
  apply quiet_bind.
  { apply quiet_mapM. intros [i p]. apply quiet_createSecondTransaction. }
  intros seconds.
  apply quiet_bind; [apply quiet_createWithdrawTransaction|intros third].
  apply quiet_ret.
Qed.

Lemma quiet_fee_loop uniqueId fuel : forall c, quiet (fee_loop cfg fuel uniqueId c).
Proof.
  induction fuel as [|fuel IH]; intros c; cbn.
  - intros s. apply builds_only_refl.
  - apply quiet_bind; [apply quiet_loop_body|intros pass].
    destruct (0 <? pass_extra pass); [apply IH|apply quiet_ret].
Qed.


Lemma getBuyerUtxos_run s :
  getBuyerUtxos cfg s =
  if (buyerAddress cfg =? "")%string then (s, Returns tt)
  else
    match getUnspents (buyerAddress cfg) with
    | inl e => (log (GetUnspents (buyerAddress cfg)) s, Throws e)
    | inr None | inr (Some []) =>
        (log (GetUnspents (buyerAddress cfg)) s,
         Throws (OrditSDKError (msg_no_utxos (buyerAddress cfg))))
    | inr (Some (u :: us)) =>
        (mkSession (u :: us) (buyerCommitPaymentAddress s) (firstTxId s)
           (trace s ++ [GetUnspents (buyerAddress cfg)]), Returns tt)
    end.
Proof.
  unfold getBuyerUtxos. destruct (buyerAddress cfg =? "")%string; [reflexivity|].
  unfold bind, emit.
  destruct (getUnspents (buyerAddress cfg)) as [e|[[|u us]|]]; reflexivity.
Qed.

(** X1. The effects of any run of [buildTransactions], whatever its outcome,
    are laid out in this order: inscription lookups, at most one fetch of the
    buyer's UTXOs, then marks of transactions built. The fetch and the
    builders are only reached when the batch is non-empty, the buyer address
    type is accepted and every seller PSBT passes validation; and unless the
    buyer address is empty, transactions are only built on the non-empty UTXO
    list that fetch returned, which the loop never changes. *)
Theorem buildTransactions_trace_layout fuel uniqueId s :
  exists lookups fetch builts,
    trace (fst (buildTransactions cfg fuel uniqueId s))
    = (trace s ++ map GetInscriptions lookups ++ fetch ++ builts)%list /\
    (fetch = [] \/ fetch = [GetUnspents (buyerAddress cfg)]) /\
    Forall is_built builts /\
    (fetch <> [] \/ builts <> [] ->
     (exists t, getAddressType (buyerAddress cfg) (network cfg) = inr t /\
                supported_buyer_type t = true) /\
     inscriptionsPsbts cfg <> [] /\
     Forall (fun p => validate_one cfg p = inr tt) (inscriptionsPsbts cfg)) /\
    (builts <> [] -> buyerAddress cfg <> "" ->
     exists us,
       getUnspents (buyerAddress cfg) = inr (Some us) /\ us <> [] /\
       buyerUtxos (fst (buildTransactions cfg fuel uniqueId s)) = us).
Proof.
  pattern (fst (buildTransactions cfg fuel uniqueId s)).
  match goal with |- ?P _ => set (Q := P) end.
  assert (Hnone : Q s).
  { exists [], [], []. cbn. rewrite app_nil_r.
    repeat split; auto; intros; tauto. }
  unfold buildTransactions.
  destruct (inscriptionsPsbts cfg) as [|p0 ps] eqn:Hl; [exact Hnone|].
  unfold bind at 1.
  destruct (getAddressType (buyerAddress cfg) (network cfg)) as [e|t] eqn:Ht;
    cbn [lift throw ret]; [exact Hnone|].
  destruct (supported_buyer_type t) eqn:Hty; cbn [negb]; [|exact Hnone].
  unfold bind at 1. rewrite validate_run.
  set (lookups := lookups_of cfg (p0 :: ps)).
  destruct (validation_outcome cfg (p0 :: ps)) as [[]|e|] eqn:Hv.
  2:{ exists lookups, [], []. cbn. rewrite !app_nil_r.
      repeat split; auto; intros; tauto. }
  2:{ now apply validation_outcome_total in Hv. }
  apply validation_outcome_returns in Hv.
  assert (Hvalid : (exists t0, @inr Error string t = inr t0 /\
                               supported_buyer_type t0 = true) /\
                   p0 :: ps <> [] /\
                   Forall (fun p => validate_one cfg p = inr tt) (p0 :: ps)).
  { split; [eauto|]. split; [discriminate|exact Hv]. }
  set (s1 := logs (map GetInscriptions lookups) s).
  unfold bind at 1. rewrite getBuyerUtxos_run.
  destruct (buyerAddress cfg =? "")%string eqn:Hempty.
  - apply String.eqb_eq in Hempty.
    destruct (quiet_fee_loop uniqueId fuel 600 s1) as [_ (l & Hl' & Hb)].
    exists lookups, [], l.
    split. { rewrite Hl'. unfold s1, logs. cbn [trace app]. now rewrite <- !app_assoc. }
    split; [now left|]. split; [exact Hb|].
    split; [intros _; exact Hvalid|]. intros _ Hne. contradiction.
  - destruct (getUnspents (buyerAddress cfg)) as [e|[[|u us]|]] eqn:Hu.
    1,2,4: exists lookups, [GetUnspents (buyerAddress cfg)], [];
      (split; [cbn; now rewrite <- !app_assoc|]);
      (split; [now right|]); (split; [constructor|]);
      (split; [intros _; exact Hvalid|]); intros Hb; contradiction.
    set (s2 := mkSession (u :: us) (buyerCommitPaymentAddress s1) (firstTxId s1)
                 (trace s1 ++ [GetUnspents (buyerAddress cfg)])).
    destruct (quiet_fee_loop uniqueId fuel 600 s2) as [Hus (l & Hl' & Hb)].
    exists lookups, [GetUnspents (buyerAddress cfg)], l.
    split. { rewrite Hl'. unfold s2, s1, logs. cbn [trace app]. now rewrite <- !app_assoc. }
    split; [now right|]. split; [exact Hb|].
    split; [intros _; exact Hvalid|]. intros _ _.
    exists (u :: us). split; [reflexivity|]. split; [discriminate|exact Hus].
Qed.

(** X2. When the batch is valid and the data source has no spendable UTXO for
    the (non-empty) buyer address, an [undefined] or an empty list,
    [buildTransactions] throws "No spendable utxos found for <address>"
    whatever the fuel, after the lookups and the one fetch: no transaction is
    built and no cached field is written. *)
Theorem no_spendable_utxos_fails fuel uniqueId s t :
  inscriptionsPsbts cfg <> [] ->
  getAddressType (buyerAddress cfg) (network cfg) = inr t ->
  supported_buyer_type t = true ->
  Forall (fun p => validate_one cfg p = inr tt) (inscriptionsPsbts cfg) ->
  buyerAddress cfg <> "" ->
  getUnspents (buyerAddress cfg) = inr None \/
  getUnspents (buyerAddress cfg) = inr (Some []) ->
  buildTransactions cfg fuel uniqueId s =
  (logs (map GetInscriptions (lookups_of cfg (inscriptionsPsbts cfg))
         ++ [GetUnspents (buyerAddress cfg)]) s,
   Throws (OrditSDKError ("No spendable utxos found for " ++ buyerAddress cfg))).
Proof.
  intros Hne Ht Hty Hv Haddr Hu. unfold buildTransactions.
  destruct (inscriptionsPsbts cfg) as [|p0 ps] eqn:Hl; [contradiction|].
  unfold bind at 1. rewrite Ht. cbn [lift ret]. rewrite Hty. cbn [negb].
  unfold bind at 1. rewrite validate_run.
  apply validation_outcome_returns in Hv. rewrite Hv.
  unfold bind at 1. rewrite getBuyerUtxos_run.
  apply String.eqb_neq in Haddr. rewrite Haddr.
  assert (Hlogs : forall es e s0, log e (logs es s0) = logs (es ++ [e]) s0).
  { intros es e s0. unfold log, logs. cbn. now rewrite <- app_assoc. }
  destruct Hu as [-> | ->]; now rewrite Hlogs.
Qed.

End Effects.

(** ** The first transaction *)

Section FirstTransaction.
Context {lib : Lib}.
Variable cfg : Config.

Lemma createFirstTransaction_run outputs s :
  createFirstTransaction cfg outputs s =
  match mapE (prepare_utxo cfg) (buyerUtxos s) with
  | inl e => (s, Throws e)
  | inr prepared =>
      let res := coinSelect prepared outputs BASE_FEERATE (buyerAddress cfg) in
      match cs_inputs res with
      | None | Some [] => (s, Throws (OrditSDKError msg_not_enough_funds))
      | Some selected =>
          match cs_outputs res with
          | None | Some [] => (s, Throws (OrditSDKError msg_no_output))
          | Some returned =>
              match mapE (first_tx_input prepared) selected with
              | inl e => (s, Throws e)
              | inr psbtInputs =>
                  match mapE (first_tx_output cfg) returned with
                  | inl e => (s, Throws e)
                  | inr psbtOutputs =>
                      let first := mkPsbt psbtInputs psbtOutputs in
                      (log BuiltFirst (with_firstTxId (signed_script_txid first selected) s),
                       Returns first)
                  end
              end
          end
      end
  end.
Proof.
  unfold createFirstTransaction, bind, get_session.
  destruct (mapE (prepare_utxo cfg) (buyerUtxos s)) as [e|prepared];
    cbn [lift throw ret]; [reflexivity|].
  cbv zeta.
  destruct (cs_inputs _) as [[|ri selected]|]; try reflexivity.
  destruct (cs_outputs _) as [[|ro returned]|]; try reflexivity.
  destruct (mapE (first_tx_input prepared) (ri :: selected)) as [e|psbtInputs];
    cbn [lift throw ret]; [reflexivity|].
  destruct (mapE (first_tx_output cfg) (ro :: returned)) as [e|psbtOutputs];
    cbn [lift throw ret]; reflexivity.
Qed.

(** X3. [createFirstTransaction] is all or nothing on the session: when it
    throws, whatever the reason (a UTXO that cannot be prepared, no inputs or
    no outputs from coin selection, an unknown selected input, an output
    without value or address script), the session is exactly as before, so a
    cached first transaction id is never left half-updated; when it returns,
    the only changes are the cached id, taken over the inputs with the
    selected inputs' redeem scripts, and the mark of the build. It always
    does one or the other. *)
Theorem createFirstTransaction_all_or_nothing outputs s :
  match createFirstTransaction cfg outputs s with
  | (s', Returns first) =>
      exists prepared selected,
        mapE (prepare_utxo cfg) (buyerUtxos s) = inr prepared /\
        cs_inputs (coinSelect prepared outputs BASE_FEERATE (buyerAddress cfg))
          = Some selected /\
        s' = log BuiltFirst (with_firstTxId (signed_script_txid first selected) s)
  | (s', Throws _) => s' = s
  | (_, OutOfFuel) => False
  end.
Proof.
  rewrite createFirstTransaction_run.
  destruct (mapE (prepare_utxo cfg) (buyerUtxos s)) as [e|prepared]; [reflexivity|].
  cbv zeta.
  destruct (cs_inputs _) as [[|ri selected]|] eqn:Ei; try reflexivity.
  destruct (cs_outputs _) as [[|ro returned]|]; try reflexivity.
  destruct (mapE (first_tx_input prepared) _) as [e|psbtInputs]; [reflexivity|].
  destruct (mapE (first_tx_output cfg) _) as [e|psbtOutputs]; [reflexivity|].
  exists prepared, (ri :: selected). auto.
Qed.

Lemma prepare_utxo_inv u c :
  prepare_utxo cfg u = inr c ->
  ci_txid c = utxo_txid u /\ ci_vout c = utxo_n u /\ ci_value c = utxo_sats u /\
  processInput u (buyerPublicKey cfg) (network cfg) = inr (ci_data c).
Proof.
  unfold prepare_utxo.
  destruct (processInput u _ _) as [e|d]; [discriminate|].
  destruct (getAddressType _ _) as [e|t]; [discriminate|].
  intros [= <-]. cbn. auto.
Qed.

Lemma Forall2_In_r {A B} (R : A -> B -> Prop) l l' b :
  Forall2 R l l' -> In b l' -> exists a, In a l /\ R a b.
Proof.
  induction 1 as [|x y l l' Hxy _ IH]; cbn; [contradiction|].
  intros [<- | Hin]; [eauto|].
  destruct (IH Hin) as (a & Ha & HR). eauto.
Qed.

(** X4. Whatever coin selection answers, a first transaction that is
    returned only spends the buyer's fetched UTXOs: each of its inputs names
    the outpoint [txid:n] of one of them and carries the input data
    [processInput] prepared for that UTXO. *)
Theorem first_transaction_spends_buyer_utxos outputs s s' first :
  createFirstTransaction cfg outputs s = (s', Returns first) ->
  Forall (fun i =>
            exists u data,
              In u (buyerUtxos s) /\
              processInput u (buyerPublicKey cfg) (network cfg) = inr data /\
              i = with_index (utxo_n u) (with_hash (utxo_txid u) data))
         (inputs first).
Proof.
  rewrite createFirstTransaction_run.
  destruct (mapE (prepare_utxo cfg) (buyerUtxos s)) as [e|prepared] eqn:Ep; [discriminate|].
  cbv zeta.
  destruct (cs_inputs _) as [[|ri selected]|]; try discriminate.
  destruct (cs_outputs _) as [[|ro returned]|]; try discriminate.
  destruct (mapE (first_tx_input prepared) _) as [e|psbtInputs] eqn:Ei; [discriminate|].
  destruct (mapE (first_tx_output cfg) _) as [e|psbtOutputs]; [discriminate|].
  intros [= _ <-]. cbn.
  apply mapE_Forall2 in Ep. apply mapE_Forall2 in Ei.
  apply Forall_forall. intros i Hi.
  destruct (Forall2_In_r _ _ _ _ Ei Hi) as (input & _ & Hinput).
  unfold first_tx_input in Hinput.
  destruct (find _ prepared) as [c|] eqn:Ef; [|discriminate].
  injection Hinput as <-.
  apply find_some in Ef as [Hc Hmatch].
  apply andb_true_iff in Hmatch as [_ Hvout]. apply Nat.eqb_eq in Hvout.
  destruct (Forall2_In_r _ _ _ _ Ep Hc) as (u & Hu & Hprep).
  apply prepare_utxo_inv in Hprep as (Htx & Hn & _ & Hdata).
  exists u, (ci_data c). repeat split; auto.
  now rewrite <- Hvout, Hn, Htx.
Qed.

(** X5. The outputs of a returned first transaction are the outputs coin
    selection returned, in order and with their values; none has value zero;
    an output that came back without address (the change) pays the buyer
    address. *)
Theorem first_transaction_outputs outputs s s' first :
  createFirstTransaction cfg outputs s = (s', Returns first) ->
  exists prepared returned,
    mapE (prepare_utxo cfg) (buyerUtxos s) = inr prepared /\
    cs_outputs (coinSelect prepared outputs BASE_FEERATE (buyerAddress cfg))
      = Some returned /\
    Forall2 (fun selected o =>
               so_value selected = Some (txo_value o) /\
               txo_value o <> 0 /\
               toOutputScript
                 (match so_address selected with
                  | Some a => a
                  | None => buyerAddress cfg
                  end)
                 (psbt_network (chain cfg) (network cfg))
               = inr (txo_script o))
            returned (txOutputs first).
Proof.
  rewrite createFirstTransaction_run.
  destruct (mapE (prepare_utxo cfg) (buyerUtxos s)) as [e|prepared] eqn:Ep; [discriminate|].
  cbv zeta.
  destruct (cs_inputs _) as [[|ri selected]|]; try discriminate.
  destruct (cs_outputs _) as [[|ro returned]|] eqn:Eo; try discriminate.
  destruct (mapE (first_tx_input prepared) _) as [e|psbtInputs]; [discriminate|].
  destruct (mapE (first_tx_output cfg) _) as [e|psbtOutputs] eqn:Em; [discriminate|].
  intros [= _ <-]. exists prepared, (ro :: returned).
  split; [reflexivity|]. split; [exact Eo|]. cbn [txOutputs].
  apply mapE_Forall2 in Em.
  eapply Forall2_impl; [|exact Em]. intros so o. unfold first_tx_output.
  destruct (so_value so) as [[|v|v]|]; try discriminate;
    destruct (toOutputScript _ _) as [e|script]; try discriminate;
    intros [= <-]; cbn; repeat split; discriminate.
Qed.

Lemma plain_inputs_map (l : list PsbtInput) :
  forall selected,
    List.length l = List.length selected ->
    Forall (fun input => redeemScript (ci_data input) = None) selected ->
    map (fun '(i, input) => (hash i, index i, redeemScript (ci_data input)))
        (combine l selected)
    = map (fun i => (hash i, index i, @None Buffer)) l.
Proof.
  induction l as [|i l IH]; intros [|c selected] Hlen Hplain; cbn in *;
    try reflexivity; try discriminate.
  inversion Hplain as [|? ? Hc Hrest]; subst. rewrite Hc. f_equal.
  apply IH; auto.
Qed.

(** X6. When none of the selected inputs carries a redeem script (no
    nested-segwit input), the id cached by [createFirstTransaction] is the id
    of the unsigned transaction of the PSBT it returns, the one
    [generateInputFromPSBTOutput] reads back from that PSBT. *)
Theorem cached_txid_is_unsigned_txid outputs s s' first :
  createFirstTransaction cfg outputs s = (s', Returns first) ->
  (forall prepared selected,
      mapE (prepare_utxo cfg) (buyerUtxos s) = inr prepared ->
      cs_inputs (coinSelect prepared outputs BASE_FEERATE (buyerAddress cfg))
        = Some selected ->
      Forall (fun input => redeemScript (ci_data input) = None) selected) ->
  firstTxId s' = Some (unsigned_txid first).
Proof.
  rewrite createFirstTransaction_run.
  destruct (mapE (prepare_utxo cfg) (buyerUtxos s)) as [e|prepared] eqn:Ep; [discriminate|].
  cbv zeta.
  destruct (cs_inputs _) as [[|ri selected]|] eqn:Es; try discriminate.
  destruct (cs_outputs _) as [[|ro returned]|]; try discriminate.
  destruct (mapE (first_tx_input prepared) _) as [e|psbtInputs] eqn:Ei; [discriminate|].
  destruct (mapE (first_tx_output cfg) _) as [e|psbtOutputs]; [discriminate|].
  intros [= <- <-] Hplain. specialize (Hplain prepared _ eq_refl Es).
  apply mapE_length in Ei.
  cbn. f_equal. unfold signed_script_txid, unsigned_txid. cbn [inputs txOutputs].
  f_equal. now apply plain_inputs_map.
Qed.

End FirstTransaction.

(** ** The third transaction and the links of the chain *)

Section Withdraw.
Context {lib : Lib}.
Variable cfg : Config.

Lemma escrow_input_inv second input :
  escrow_input cfg second = inr input ->
  exists txInput escrow o st,
    nth_error (inputs second) 0 = Some txInput /\
    getEscrowTaprootAddress (outpoint_of txInput) (escrowPublicKey cfg)
      (network cfg) (chain cfg) = inr escrow /\
    nth_error (txOutputs second) 0 = Some o /\
    input = mkPsbtInput (unsigned_txid second) 0 (Some (witness_of o))
              (if (st_type st =? "p2tr")%string
               then Some (toXOnly (escrowPublicKey cfg)) else None)
              (Some (merkleHash escrow)) (Some SIGHASH_ALL) None.
Proof.
  unfold escrow_input.
  destruct (nth_error (inputs second) 0) as [txInput|] eqn:Htx; [|discriminate].
  destruct (getEscrowTaprootAddress _ _ _ _) as [e|escrow] eqn:Hescrow; [discriminate|].
  destruct (generateInputFromPSBTOutput _ _ _ _ _) as [e|g] eqn:Eg; [discriminate|].
  intros [= <-].
  apply generateInput_inv in Eg as (o & st & Ho & _ & _ & ->).
  exists txInput, escrow, o, st. repeat split; auto.
Qed.

Lemma withdraw_funding_input firstTx outputIndex seconds s s' third :
  createWithdrawTransaction cfg firstTx outputIndex seconds s = (s', Returns third) ->
  exists o funding payment h txId,
    nth_error (txOutputs firstTx) outputIndex = Some o /\
    nth_error (inputs third) (List.length seconds) = Some funding /\
    firstTxId s = Some txId /\ hash funding = txId /\
    index funding = outputIndex /\
    witnessUtxo funding = Some (witness_of o) /\
    buyerCommitPaymentAddress s = Some payment /\ pay_hash payment = Some h /\
    tapMerkleRoot funding = Some h /\
    sighashType funding = Some SIGHASH_ALL /\
    (forall key, tapInternalKey funding = Some key ->
                 key = toXOnly (buyerPublicKey cfg)).
Proof.
  intros H.
  apply createWithdrawTransaction_inv in H
    as (escrowInputs & receiveOutputs & extras & fundingInput & payment & h & txId
        & He & _ & _ & Hf & Hpay & Hh & Hid & -> & _).
  pose proof (mapE_length _ _ _ He) as Le.
  apply generateInput_inv in Hf as (o & st & Ho & _ & _ & ->).
  exists o. eexists. exists payment, h, txId.
  split; [exact Ho|]. split.
  { cbn [inputs]. rewrite nth_error_app2 by lia.
    replace (List.length seconds - List.length escrowInputs)%nat with 0%nat by lia.
    reflexivity. }
  split; [exact Hid|]. do 3 (split; [reflexivity|]).
  split; [exact Hpay|]. split; [exact Hh|]. do 2 (split; [reflexivity|]).
  cbn. destruct (st_type st =? "p2tr")%string; intros key [= <-]. reflexivity.
Qed.

(** X7. The layout of a returned third transaction. Input [i] spends output
    0 of the [i]-th second transaction with its script and value as witness
    data, SIGHASH_ALL, and as merkle root the hash of the escrow address
    recomputed from the outpoint of that second transaction's first input;
    output [i] pays exactly that value to the receive address. The extra
    outputs follow in their order, and the last input, at the position equal
    to the number of second transactions, spends the given output of the
    first transaction under the cached first transaction id with the merkle
    root of the cached commitment payment. An internal key on an escrow input
    is the escrow key's, on the last input the buyer's. *)
Theorem withdraw_transaction_layout firstTx outputIndex seconds s s' third :
  createWithdrawTransaction cfg firstTx outputIndex seconds s = (s', Returns third) ->
  List.length (inputs third) = S (List.length seconds) /\
  List.length (txOutputs third)
  = (List.length seconds + List.length (extraOutputs cfg))%nat /\
  (forall i second,
      nth_error seconds i = Some second ->
      exists txInput escrow o input script,
        nth_error (inputs second) 0 = Some txInput /\
        getEscrowTaprootAddress (outpoint_of txInput) (escrowPublicKey cfg)
          (network cfg) (chain cfg) = inr escrow /\
        nth_error (txOutputs second) 0 = Some o /\
        nth_error (inputs third) i = Some input /\
        hash input = unsigned_txid second /\
        index input = 0%nat /\
        witnessUtxo input = Some (witness_of o) /\
        tapMerkleRoot input = Some (merkleHash escrow) /\
        sighashType input = Some SIGHASH_ALL /\
        (forall key, tapInternalKey input = Some key ->
                     key = toXOnly (escrowPublicKey cfg)) /\
        toOutputScript (receiveAddress cfg) (psbt_network (chain cfg) (network cfg))
          = inr script /\
        nth_error (txOutputs third) i = Some (mkTxOutput script (txo_value o))) /\
  (forall j extra,
      nth_error (extraOutputs cfg) j = Some extra ->
      exists script,
        toOutputScript (o_address extra) (psbt_network (chain cfg) (network cfg))
          = inr script /\
        nth_error (txOutputs third) (List.length seconds + j)
        = Some (mkTxOutput script (o_value extra))) /\
  (exists o funding payment h txId,
      nth_error (txOutputs firstTx) outputIndex = Some o /\
      nth_error (inputs third) (List.length seconds) = Some funding /\
      firstTxId s = Some txId /\ hash funding = txId /\
      index funding = outputIndex /\
      witnessUtxo funding = Some (witness_of o) /\
      buyerCommitPaymentAddress s = Some payment /\ pay_hash payment = Some h /\
      tapMerkleRoot funding = Some h /\
      sighashType funding = Some SIGHASH_ALL /\
      (forall key, tapInternalKey funding = Some key ->
                   key = toXOnly (buyerPublicKey cfg))).
Proof.
  intros H. pose proof H as H0. revert H0.
  apply createWithdrawTransaction_inv in H
    as (escrowInputs & receiveOutputs & extras & fundingInput & payment & h & txId
        & He & Hr & Hx & Hf & Hpay & Hh & Hid & -> & _).
  intros H0.
  pose proof (mapE_length _ _ _ He) as Le.
  pose proof (mapE_length _ _ _ Hr) as Lr.
  pose proof (mapE_length _ _ _ Hx) as Lx.
  cbn [inputs txOutputs]. rewrite !length_app. cbn [List.length].
  split; [lia|]. split; [lia|]. split; [|split].
  - intros i second Hi.
    destruct (mapE_nth _ _ _ _ _ He Hi) as (input & Hinput & Hesc).
    destruct (mapE_nth _ _ _ _ _ Hr Hinput) as (out & Hout & Hrec).
    apply escrow_input_inv in Hesc as (txInput & escrow & o & st & Htx & Hescrow & Ho & ->).
    unfold receive_output in Hrec.
    destruct (toOutputScript _ _) as [e|script] eqn:Escript; [discriminate|].
    injection Hrec as <-.
    exists txInput, escrow, o. eexists. exists script.
    assert (Hlt : (i < List.length escrowInputs)%nat)
      by (apply nth_error_Some; congruence).
    split; [exact Htx|]. split; [exact Hescrow|]. split; [exact Ho|].
    split; [rewrite nth_error_app1 by exact Hlt; exact Hinput|].
    do 5 (split; [reflexivity|]).
    split; [|split; [reflexivity|]].
    + cbn. destruct (st_type st =? "p2tr")%string; intros key [= <-]. reflexivity.
    + rewrite nth_error_app1 by lia. exact Hout.
  - intros j extra Hj.
    destruct (mapE_nth _ _ _ _ _ Hx Hj) as (out & Hout & Hext).
    unfold extra_output in Hext.
    destruct (toOutputScript _ _) as [e|script]; [discriminate|].
    injection Hext as <-. exists script. split; [reflexivity|].
    rewrite nth_error_app2 by lia.
    replace (List.length seconds + j - List.length receiveOutputs)%nat with j by lia.
    exact Hout.
  - exact (withdraw_funding_input _ _ _ _ _ _ H0).
Qed.

(** X8. The links of a returned chain. There is one second transaction per
    seller PSBT; the [i]-th is that PSBT with one input appended, spending
    output [i] of the first transaction; the last input of the third
    transaction, at the position equal to the number of second transactions,
    spends the output after those; and both kinds of input name the first
    transaction by the one id left cached in the session. *)
Theorem chain_links fuel uniqueId s s' r {datasource : BaseDatasource} :
  buildTransactions cfg fuel uniqueId s = (s', Returns r) ->
  let N := List.length (inscriptionsPsbts cfg) in
  exists txId,
    firstTxId s' = Some txId /\
    List.length (secondTransactionPSBTB64s r) = N /\
    (forall i p second,
        nth_error (inscriptionsPsbts cfg) i = Some p ->
        nth_error (secondTransactionPSBTB64s r) i = Some second ->
        exists appended o,
          second = mkPsbt (inputs p ++ [appended]) (txOutputs p) /\
          hash appended = txId /\ index appended = i /\
          nth_error (txOutputs (firstTransactionPSBTB64 r)) i = Some o /\
          witnessUtxo appended = Some (witness_of o)) /\
    (exists funding o,
        nth_error (inputs (thirdTransactionPSBTB64 r)) N = Some funding /\
        hash funding = txId /\ index funding = N /\
        nth_error (txOutputs (firstTransactionPSBTB64 r)) N = Some o /\
        witnessUtxo funding = Some (witness_of o)).
Proof.
  intros H N.
  apply buildTransactions_final_pass in H as (c1 & s1 & pass & Hb & _ & <-).
  apply loop_body_inv in Hb
    as (addr & payment & sa & outs & first & sb & seconds & sc & third
        & _ & _ & Houts & _ & Hseconds & Hthird & ->).
  cbn [pass_txs firstTransactionPSBTB64 secondTransactionPSBTB64s thirdTransactionPSBTB64].
  apply requested_outputs_length in Houts.
  pose proof Hseconds as Hs2.
  apply second_transactions_inv in Hs2 as (_ & _ & Hid & Hall).
  pose proof (Forall2_length Hall) as Hlen.
  unfold indexed in Hlen. rewrite indexed_from_length in Hlen.
  pose proof (withdraw_funding_input _ _ _ _ _ _ Hthird)
    as (o & funding & pay3 & h & txId & Ho & Hf & Htx & Hh & Hi & Hw & _).
  pose proof Hthird as Hs'.
  apply createWithdrawTransaction_inv in Hs'
    as (_ & _ & _ & _ & _ & _ & _ & _ & _ & _ & _ & _ & _ & _ & _ & ->).
  exists txId. split; [exact Htx|]. split; [now rewrite <- Hlen|]. split.
  - intros i p second Hp Hsec.
    pose proof (Forall2_indexed_nth _ _ _ _ _ _ _ Hall Hp Hsec) as Hi'.
    cbn in Hi'. destruct Hi' as (g & pay & id & Hg & _ & Hid' & ->).
    apply generateInput_inv in Hg as (o' & st & Ho' & _ & _ & ->).
    eexists. exists o'. split; [reflexivity|]. cbn.
    repeat split; auto. congruence.
  - exists funding, o. rewrite <- Hlen in Hf.
    replace (List.length outs - 1)%nat with N in * by (unfold N; lia).
    auto.
Qed.



(** X10. The CPFP funding only grows: every pass that makes the loop go round
    again adds at least one satoshi, so after [k] such passes the funding is
    at least [k] above where it started, and the buyer's UTXO list is still
    the same. *)
Theorem cpfp_funding_grows uniqueId k c s c' s' :
  continues cfg uniqueId k c s c' s' ->
  c + Z.of_nat k <= c' /\ buyerUtxos s' = buyerUtxos s.
Proof.
  induction 1 as [c s|k c s s1 pass c' s' Hb Hx _ IH].
  - split; [cbn; lia|reflexivity].
  - destruct IH as [IH Hu].
    destruct (quiet_loop_body cfg uniqueId c s) as [Hu1 _]. rewrite Hb in Hu1.
    cbn in Hu1. split; [lia|congruence].
Qed.

End Withdraw.

(** ** The seller side and how it meets the builder *)

Section SellerProperties.
Context {lib : Lib} {seller : SellerSide}.

Lemma createInscriptionPSBT_inv
    inscriptionId sellerPublicKey sellerAddress receivePaymentAddress
    inscriptionPrice escrowPublicKey network chain psbt :
  createInscriptionPSBT inscriptionId sellerPublicKey sellerAddress
    receivePaymentAddress inscriptionPrice escrowPublicKey network chain = inr psbt ->
  exists utxo input escrow toEscrow toSeller,
    getInscriptionUTXO inscriptionId = inr (Some utxo) /\
    utxo_address utxo = sellerAddress /\
    processInputWith utxo sellerPublicKey network 129 = inr input /\
    getEscrowTaprootAddress (utxo_txid utxo ++ ":" ++ string_of_nat (utxo_n utxo))
      escrowPublicKey network chain = inr escrow /\
    toOutputScript (address escrow) (psbt_network chain network) = inr toEscrow /\
    toOutputScript receivePaymentAddress (psbt_network chain network) = inr toSeller /\
    psbt = mkPsbt [input] [mkTxOutput toEscrow (utxo_sats utxo);
                           mkTxOutput toSeller inscriptionPrice].
Proof.
  unfold createInscriptionPSBT, address_output.
  change (Z.lor SIGHASH_ALL SIGHASH_ANYONECANPAY) with 129.
  destruct (getInscriptionUTXO inscriptionId) as [e|[utxo|]] eqn:Hutxo;
    try discriminate.
  destruct (utxo_address utxo =? sellerAddress)%string eqn:Eaddr; [|discriminate].
  cbn [negb].
  destruct (processInputWith _ _ _ _) as [e|input] eqn:Hinput; [discriminate|].
  destruct (getEscrowTaprootAddress _ _ _ _) as [e|escrow] eqn:Hescrow; [discriminate|].
  cbn [mapE o_address o_value].
  destruct (toOutputScript (address escrow) _) as [e|toEscrow] eqn:H1; [discriminate|].
  destruct (toOutputScript receivePaymentAddress _) as [e|toSeller] eqn:H2;
    [discriminate|].
  intros [= <-]. apply String.eqb_eq in Eaddr.
  exists utxo, input, escrow, toEscrow, toSeller. repeat split; auto.
Qed.


(** X12. An inscription that is unknown, or that sits on another address
    than the seller's, is refused with the matching error, whatever the keys,
    the price, the payment address and every other collaborator would do. *)
Theorem createInscriptionPSBT_refuses
    inscriptionId sellerPublicKey sellerAddress receivePaymentAddress
    inscriptionPrice escrowPublicKey network chain found :
  getInscriptionUTXO inscriptionId = inr found ->
  (forall utxo, found = Some utxo -> utxo_address utxo <> sellerAddress) ->
  createInscriptionPSBT inscriptionId sellerPublicKey sellerAddress
    receivePaymentAddress inscriptionPrice escrowPublicKey network chain
  = inl (OrditSDKError
           (match found with
            | None => msg_inscription_not_found inscriptionId
            | Some _ => msg_not_sellers inscriptionId
            end)).
Proof.
  intros Hfound Hforeign. unfold createInscriptionPSBT. rewrite Hfound.
  destruct found as [utxo|]; [|reflexivity].
  destruct (utxo_address utxo =? sellerAddress)%string eqn:Eaddr; [|reflexivity].
  apply String.eqb_eq in Eaddr. now destruct (Hforeign utxo eq_refl).
Qed.

Variable cfg : Config.

(** X13. The escrow binding across the two sides. Take a PSBT returned by
    [createInscriptionPSBT] for this builder's escrow key, network and chain,
    whose input names the UTXO's outpoint, and append any input to it, as
    [createSecondTransaction] does. Then the escrow input the third
    transaction derives from that second transaction spends its output 0
    with the merkle root of the very escrow address the seller's output pays,
    and carries the inscription's satoshis. *)
Theorem seller_output_is_escrow_input
    inscriptionId sellerPublicKey sellerAddress receivePaymentAddress
    inscriptionPrice psbt appended input :
  createInscriptionPSBT inscriptionId sellerPublicKey sellerAddress
    receivePaymentAddress inscriptionPrice (escrowPublicKey cfg) (network cfg) (chain cfg)
  = inr psbt ->
  (forall utxo i,
      getInscriptionUTXO inscriptionId = inr (Some utxo) ->
      processInputWith utxo sellerPublicKey (network cfg) 129 = inr i ->
      hash i = utxo_txid utxo /\ index i = utxo_n utxo) ->
  escrow_input cfg (addInput psbt appended) = inr input ->
  exists utxo escrow w,
    getInscriptionUTXO inscriptionId = inr (Some utxo) /\
    getEscrowTaprootAddress (utxo_txid utxo ++ ":" ++ string_of_nat (utxo_n utxo))
      (escrowPublicKey cfg) (network cfg) (chain cfg) = inr escrow /\
    hash input = unsigned_txid (addInput psbt appended) /\
    index input = 0%nat /\
    tapMerkleRoot input = Some (merkleHash escrow) /\
    witnessUtxo input = Some w /\
    wu_value w = utxo_sats utxo /\
    toOutputScript (address escrow) (psbt_network (chain cfg) (network cfg))
    = inr (wu_script w).
Proof.
  intros Hpsbt Hkeep Hinput.
  apply createInscriptionPSBT_inv in Hpsbt
    as (utxo & i & escrow & toEscrow & toSeller
        & Hutxo & _ & Hi & Hescrow & HtoEscrow & _ & ->).
  destruct (Hkeep utxo i Hutxo Hi) as [Hhash Hindex].
  apply escrow_input_inv in Hinput
    as (txInput & escrow' & o & st & Htx & Hescrow' & Ho & ->).
  cbn in Htx, Ho. injection Htx as <-. injection Ho as <-.
  unfold outpoint_of in Hescrow'. rewrite Hhash, Hindex, Hescrow in Hescrow'.
  injection Hescrow' as <-.
  exists utxo, escrow. eexists.
  split; [exact Hutxo|]. split; [exact Hescrow|].
  do 4 (split; [reflexivity|]). split; [reflexivity|exact HtoEscrow].
Qed.

(** X14. The buyer-side validator accepts what the seller side makes. If the
    input [processInput] returns names the UTXO's outpoint and carries
    witness data whose script is the (non-empty) seller address's, and the
    index lists an inscription at that outpoint owned by that address, then
    [validateInscriptionPsbts]'s callback accepts the PSBT returned by
    [createInscriptionPSBT]: both sides spell the outpoint the same way. *)
Theorem seller_psbt_is_valid {datasource : BaseDatasource}
    inscriptionId sellerPublicKey sellerAddress receivePaymentAddress
    inscriptionPrice escrowPublicKey chain psbt :
  createInscriptionPSBT inscriptionId sellerPublicKey sellerAddress
    receivePaymentAddress inscriptionPrice escrowPublicKey (network cfg) chain
  = inr psbt ->
  sellerAddress <> "" ->
  (forall utxo i,
      getInscriptionUTXO inscriptionId = inr (Some utxo) ->
      processInputWith utxo sellerPublicKey (network cfg) 129 = inr i ->
      hash i = utxo_txid utxo /\ index i = utxo_n utxo /\
      exists w st,
        witnessUtxo i = Some w /\
        getScriptType (wu_script w) (network cfg) = inr st /\
        st_address st = Some (utxo_address utxo)) ->
  (forall utxo,
      getInscriptionUTXO inscriptionId = inr (Some utxo) ->
      let outpoint := utxo_txid utxo ++ ":" ++ string_of_nat (utxo_n utxo) in
      exists listed inscription,
        getInscriptions outpoint = inr (Some listed) /\
        In inscription listed /\
        insc_outpoint inscription = outpoint /\
        insc_owner inscription = utxo_address utxo) ->
  validate_one cfg psbt = inr tt.
Proof.
  intros Hpsbt Hne Hinput Hindex.
  apply createInscriptionPSBT_inv in Hpsbt
    as (utxo & i & escrow & toEscrow & toSeller & Hutxo & Haddr & Hi & _ & _ & _ & ->).
  destruct (Hinput utxo i Hutxo Hi) as (Hhash & Hidx & w & st & Hw & Hst & Hsa).
  destruct (Hindex utxo Hutxo) as (listed & inscription & Hl & Hin & Hout & Hown).
  unfold validate_one, validate_before_await. cbn [inputs].
  rewrite Hw, Hst, Hsa, Haddr.
  destruct sellerAddress as [|a rest]; [contradiction|]. cbn [truthy_string].
  unfold validate_after_await, outpoint_of. rewrite Hhash, Hidx, Hl.
  destruct listed as [|x listed]; [destruct Hin|].
  replace (existsb _ (x :: listed)) with true; [reflexivity|].
  symmetry. apply existsb_exists. exists inscription. split; [exact Hin|].
  rewrite Hout, Hown, Haddr, !String.eqb_refl. reflexivity.
Qed.

(** X15. Which input the buyer signs in a second transaction. A PSBT
    returned by [createInscriptionPSBT] has one input, so the second
    transaction built from it has two, and the one [createSecondTransaction]
    appended sits at index 1: it spends the given output of the first
    transaction under the cached id, and an internal key on it is the
    buyer's. *)
Theorem buyer_signs_index_one
    inscriptionId sellerPublicKey sellerAddress receivePaymentAddress
    inscriptionPrice escrowPublicKey network chain psbt
    firstTx outputIndex s s' second :
  createInscriptionPSBT inscriptionId sellerPublicKey sellerAddress
    receivePaymentAddress inscriptionPrice escrowPublicKey network chain = inr psbt ->
  createSecondTransaction cfg firstTx outputIndex psbt s = (s', Returns second) ->
  List.length (inputs second) = 2%nat /\
  txOutputs second = txOutputs psbt /\
  exists appended,
    nth_error (inputs second) 1 = Some appended /\
    firstTxId s = Some (hash appended) /\
    index appended = outputIndex /\
    sighashType appended = Some SIGHASH_ALL /\
    (forall key, tapInternalKey appended = Some key ->
                 key = toXOnly (buyerPublicKey cfg)).
Proof.
  intros Hpsbt Hsecond.
  apply createInscriptionPSBT_inv in Hpsbt
    as (utxo & i & escrow & toEscrow & toSeller & _ & _ & _ & _ & _ & _ & ->).
  apply createSecondTransaction_inv in Hsecond
    as (generated & payment & txId & Hg & _ & Hid & -> & _).
  apply generateInput_inv in Hg as (o & st & _ & _ & _ & ->).
  split; [reflexivity|]. split; [reflexivity|].
  eexists. split; [reflexivity|]. split; [exact Hid|].
  do 2 (split; [reflexivity|]).
  cbn. destruct (st_type st =? "p2tr")%string; intros key [= <-]. reflexivity.
Qed.

End SellerProperties.

(** ** The CPFP fee rate *)

Section Rate.
Context {lib : Lib}.
Variable cfg : Config.


End Rate.

(** ** The properties on the example *)

Import Reference.

Ltac run := lazy; reflexivity.

(** C1, counterexample. With collaborators whose funding estimate never
    stops asking, the run of [buildTransactions] on the example is still in
    its loop after any number of passes: it neither returns nor throws. With
    the reference collaborators and a buyer holding 2900 satoshis, the loop is
    still running after 220 passes, each asking for 2 satoshis more, and the
    next pass ends the call with "Not enough funds". *)
Lemma loop_runs_without_bound :
  runs_forever
    (fun fuel =>
       @buildTransactions hungryLib example_datasource example_cfg fuel "uniqueId"
         new_session) /\
  snd (@buildTransactions refLib (tight_datasource 2900) single_cfg 220 "uniqueId"
         new_session) = OutOfFuel /\
  snd (@buildTransactions refLib (tight_datasource 2900) single_cfg 221 "uniqueId"
         new_session) = Throws (OrditSDKError "No input utxo found. Not enough funds.").
Proof.
  split; [|split; vm_compute; reflexivity].
  intros fuel.
  rewrite (@buildTransactions_enters_loop hungryLib example_datasource example_cfg
             fuel "uniqueId" new_session "p2sh"
             (mkSession [] None None
                [GetInscriptions (mint_txid ++ ":16"); GetInscriptions (mint_txid ++ ":17")])
             example_ready); try (vm_compute; reflexivity); try discriminate.
  apply (@fee_loop_never_exits hungryLib example_cfg "uniqueId"
           (fun c s => exists p pay tx tr,
                c = Z.pos p /\ s = mkSession example_unspents pay tx tr)).
  - intros c s (p & pay & tx & tr & -> & ->).
    assert (Hpass : exists pay' tx' tr' txs,
               @loop_body hungryLib example_cfg "uniqueId" (Z.pos p)
                 (mkSession example_unspents pay tx tr)
               = (mkSession example_unspents pay' tx' tr', Returns (mkPass txs 1))).
    { do 4 eexists. run. }
    destruct Hpass as (pay' & tx' & tr' & txs & Hpass).
    eexists. eexists. split; [exact Hpass|]. cbn. split; [lia|].
    exists (p + 1)%positive, pay', tx', tr'. split; [lia|reflexivity].
  - exists 600%positive, None, None. eexists. split; reflexivity.
Qed.

(** C1, the amended statement on the example: the loop returns after one pass
    that asked for more funding and one that did not. *)
Lemma fee_loop_exit_example :
  exists s' r k c1 s1 pass,
    @fee_loop refLib example_cfg 5 "uniqueId" 600 example_ready = (s', Returns r) /\
    k = 1%nat /\
    continues example_cfg "uniqueId" k 600 example_ready c1 s1 /\
    loop_body example_cfg "uniqueId" c1 s1 = (s', Returns pass) /\
    pass_extra pass <= 0 /\
    pass_txs pass = r.
Proof.
  destruct (@fee_loop refLib example_cfg 5 "uniqueId" 600 example_ready)
    as [s' [r|e|]] eqn:Erun; try (vm_compute in Erun; discriminate Erun).
  exists s', r.
  destruct (proj1 (proj1 (@fee_loop_exit refLib example_cfg "uniqueId" 600 example_ready)
                     5%nat s' r) Erun)
    as (k & c1 & s1 & pass & Hk & Hc & Hb & Hle & Hr).
  exists k, c1, s1, pass. repeat split; auto.
  destruct k as [|[|k]]; [| reflexivity |]; exfalso.
  - inversion Hc; subst. clear - Hb Hle. vm_compute in Hb.
    injection Hb as _ Hp. subst pass. vm_compute in Hle. now apply Hle.
  - inversion Hc as [|? ? ? sa pa ? ? Hb1 Hx1 Hc1]; subst.
    vm_compute in Hb1. injection Hb1 as <- <-.
    inversion Hc1 as [|? ? ? sb pb ? ? Hb2 Hx2 Hc2]; subst.
    vm_compute in Hb2. injection Hb2 as <- <-.
    vm_compute in Hx2. discriminate Hx2.
Defined.






(** C6, counterexample. For the legacy buyer address the message thrown is
    "Buyer address 1BuyerLegacy must be a segwit/taproot/p2sh address", in
    which "must be a segwit/taproot address" does not occur. *)
Lemma legacy_buyer_message :
  exists message,
    @buildTransactions refLib example_datasource legacy_buyer_cfg 5 "uniqueId" new_session
    = (new_session, Throws (OrditSDKError message)) /\
    message = "Buyer address 1BuyerLegacy must be a segwit/taproot/p2sh address" /\
    occurs_in "must be a segwit/taproot address" message = false.
Proof. eexists. split; [run|]. split; vm_compute; reflexivity. Qed.

(** C6, the amended statement on the legacy buyer. *)
Lemma legacy_buyer_rejected_example :
  @buildTransactions refLib example_datasource legacy_buyer_cfg 5 "uniqueId" new_session
  = (new_session,
     Throws (OrditSDKError
               "Buyer address 1BuyerLegacy must be a segwit/taproot/p2sh address")).
Proof.
  apply (proj2 (@buildTransactions_rejects_legacy_buyer refLib example_datasource
                  legacy_buyer_cfg 5 "uniqueId" new_session "p2pkh"
                  ltac:(discriminate) eq_refl eq_refl)).
Defined.



(** C8 on a sample first transaction: its taproot output 0 is chained to the
    seller PSBT of inscription 16. *)
Lemma createSecondTransaction_example :
  exists appended,
    @createSecondTransaction refLib example_cfg sample_first 0 (seller_psbt 16)
      sample_session
    = (log (BuiltSecond 0) sample_session,
       Returns (mkPsbt (inputs (seller_psbt 16) ++ [appended])
                  (txOutputs (seller_psbt 16)))) /\
    hash appended = "f1f1" /\
    witnessUtxo appended = Some (mkWitnessUtxo "s:bc1pcommit" 1446) /\
    sighashType appended = Some 1 /\
    tapMerkleRoot appended = Some "c0ffee".
Proof.
  destruct (@createSecondTransaction_appends refLib example_cfg sample_first 0
              (seller_psbt 16) sample_session (mkTxOutput "s:bc1pcommit" 1446)
              (mkScriptTypeResponse "p2tr" (Some "bc1pcommit")) sample_payment "f1f1"
              eq_refl eq_refl (or_introl eq_refl) eq_refl eq_refl)
    as (appended & Hrun & Hh & _ & Hw & Hs & Hm & _).
  exists appended. auto.
Defined.

(** C9 on the sample first transaction: output 0 is taproot. *)
Lemma generateInput_example :
  @generateInputFromPSBTOutput refLib example_cfg sample_first 0 buyer_key (Some 1)
  = inr (mkPsbtInput (unsigned_txid sample_first) 0
           (Some (mkWitnessUtxo "s:bc1pcommit" 1446))
           (Some "a1b2c3d4e5f60718293a4b5c6d7e8f9001122334455667788990aabbccddeeff")
           None (Some 1) None).
Proof.
  apply (proj1 (@generateInputFromPSBTOutput_dispatch refLib example_cfg sample_first 0
                  buyer_key (Some 1) (mkTxOutput "s:bc1pcommit" 1446)
                  (mkScriptTypeResponse "p2tr" (Some "bc1pcommit")) eq_refl eq_refl)).
  reflexivity.
Defined.

(** C10 on the first pass of the example, for the first inscription. *)
Lemma commitment_outputs_example :
  exists s' pass payment script buyerCommitmentAddress requested,
    @loop_body refLib example_cfg "uniqueId" 600 example_ready = (s', Returns pass) /\
    pay_output payment = Some script /\
    nth_error requested 0
    = Some (mkOutput buyerCommitmentAddress
              (calculateFundingAmount
                 (addInput (seller_psbt 16) (dummy_input example_cfg payment script))
                 (inject_Z BASE_FEERATE) + 600)) /\
    map txo_value (txOutputs (firstTransactionPSBTB64 (pass_txs pass)))
    = [1446; 1446; 600; 96006].
Proof.
  destruct (@loop_body refLib example_cfg "uniqueId" 600 example_ready)
    as [s' [pass|e|]] eqn:Erun; try (vm_compute in Erun; discriminate Erun).
  destruct (@commitment_outputs_pad refLib example_cfg "uniqueId" 600 example_ready s'
              pass 0%nat (seller_psbt 16) Erun eq_refl)
    as (payment & script & addr & requested & prepared & selected
        & Hscript & _ & _ & _ & _ & Hreq & _).
  exists s', pass, payment, script, addr, requested.
  repeat split; auto.
  vm_compute in Erun. injection Erun as _ <-. reflexivity.
Defined.

(** *** The reference collaborators do not collide *)









(** ** The extra properties on the examples *)

Import SellerReference.

(** X2 on the example with a buyer who holds nothing. *)
Lemma no_spendable_utxos_example :
  @buildTransactions refLib broke_datasource example_cfg 5 "uniqueId" new_session
  = (logs (map GetInscriptions
             (@lookups_of refLib example_cfg (inscriptionsPsbts example_cfg))
           ++ [GetUnspents (buyerAddress example_cfg)]) new_session,
     Throws (OrditSDKError ("No spendable utxos found for " ++ buyerAddress example_cfg))).
Proof.
  apply (@no_spendable_utxos_fails refLib broke_datasource example_cfg 5 "uniqueId"
           new_session "p2sh").
  - discriminate.
  - reflexivity.
  - reflexivity.
  - repeat constructor.
  - discriminate.
  - right. reflexivity.
Defined.

(** X4 on the sample session: the first transaction spends the buyer's one
    UTXO. *)
Lemma first_transaction_inputs_example :
  exists s' first,
    @createFirstTransaction refLib example_cfg sample_outputs sample_session
    = (s', Returns first) /\
    Forall (fun i =>
              exists u data,
                In u (buyerUtxos sample_session) /\
                processInput u (buyerPublicKey example_cfg) (network example_cfg)
                = inr data /\
                i = with_index (utxo_n u) (with_hash (utxo_txid u) data))
           (inputs first).
Proof.
  destruct (@createFirstTransaction refLib example_cfg sample_outputs sample_session)
    as [s' [first|e|]] eqn:Erun; try (vm_compute in Erun; discriminate Erun).
  exists s', first. split; [reflexivity|].
  exact (@first_transaction_spends_buyer_utxos refLib example_cfg sample_outputs
           sample_session s' first Erun).
Defined.

(** X5 on the sample session: three outputs, the last one the change. *)
Lemma first_transaction_outputs_example :
  exists s' first returned,
    @createFirstTransaction refLib example_cfg sample_outputs sample_session
    = (s', Returns first) /\
    List.length returned = 3%nat /\
    Forall2 (fun selected o =>
               so_value selected = Some (txo_value o) /\
               txo_value o <> 0 /\
               toOutputScript
                 (match so_address selected with
                  | Some a => a
                  | None => buyerAddress example_cfg
                  end)
                 (psbt_network (chain example_cfg) (network example_cfg))
               = inr (txo_script o))
            returned (txOutputs first).
Proof.
  destruct (@createFirstTransaction refLib example_cfg sample_outputs sample_session)
    as [s' [first|e|]] eqn:Erun; try (vm_compute in Erun; discriminate Erun).
  destruct (@first_transaction_outputs refLib example_cfg sample_outputs
              sample_session s' first Erun) as (prepared & returned & Hp & Hr & Hall).
  exists s', first, returned. split; [reflexivity|]. split; [|exact Hall].
  vm_compute in Hp. injection Hp as <-. vm_compute in Hr. injection Hr as <-.
  reflexivity.
Defined.

(** X6 for the buyer paying from a taproot address. *)
Lemma cached_txid_example :
  exists s' first,
    @createFirstTransaction refLib taproot_buyer_cfg sample_outputs taproot_buyer_session
    = (s', Returns first) /\
    firstTxId s' = Some (unsigned_txid first).
Proof.
  destruct (@createFirstTransaction refLib taproot_buyer_cfg sample_outputs
              taproot_buyer_session)
    as [s' [first|e|]] eqn:Erun; try (vm_compute in Erun; discriminate Erun).
  exists s', first. split; [reflexivity|].
  apply (@cached_txid_is_unsigned_txid refLib taproot_buyer_cfg sample_outputs
           taproot_buyer_session s' first Erun).
  intros prepared selected Hp Hs.
  vm_compute in Hp. injection Hp as <-. vm_compute in Hs. injection Hs as <-.
  repeat constructor.
Defined.

(** X7 on the sample first transaction and one second transaction. *)
Lemma withdraw_transaction_example :
  exists s' third,
    @createWithdrawTransaction refLib example_cfg sample_first 1 [sample_second]
      sample_session = (s', Returns third) /\
    List.length (inputs third) = 2%nat /\
    List.length (txOutputs third) = 1%nat.
Proof.
  destruct (@createWithdrawTransaction refLib example_cfg sample_first 1 [sample_second]
              sample_session)
    as [s' [third|e|]] eqn:Erun; try (vm_compute in Erun; discriminate Erun).
  destruct (@withdraw_transaction_layout refLib example_cfg sample_first 1
              [sample_second] sample_session s' third Erun) as (Hin & Hout & _).
  exists s', third. auto.
Defined.

(** X8 on the example of the repository. *)
Lemma chain_links_example :
  exists s' r txId,
    @buildTransactions refLib example_datasource example_cfg 5 "uniqueId" new_session
    = (s', Returns r) /\
    firstTxId s' = Some txId /\
    List.length (secondTransactionPSBTB64s r) = 2%nat.
Proof.
  destruct (@buildTransactions refLib example_datasource example_cfg 5 "uniqueId"
              new_session) as [s' [r|e|]] eqn:Erun; try (vm_compute in Erun; discriminate Erun).
  destruct (@chain_links refLib example_cfg 5 "uniqueId" new_session s' r
              example_datasource Erun) as (txId & Hid & Hlen & _).
  exists s', r, txId. auto.
Defined.


(** X10 on the example: its first pass asks for more funding. *)
Lemma cpfp_funding_grows_example :
  exists c' s',
    @continues refLib example_cfg "uniqueId" 1 600 example_ready c' s' /\
    600 + Z.of_nat 1 <= c' /\
    buyerUtxos s' = buyerUtxos example_ready.
Proof.
  destruct (@loop_body refLib example_cfg "uniqueId" 600 example_ready)
    as [s1 [pass|e|]] eqn:Erun; try (vm_compute in Erun; discriminate Erun).
  assert (Hpos : 0 < pass_extra pass).
  { pose proof Erun as E. vm_compute in E. injection E as _ <-. reflexivity. }
  pose proof (continues_S example_cfg "uniqueId" 0 600 example_ready s1 pass _ _
                Erun Hpos (continues_O example_cfg "uniqueId" _ _)) as Hc.
  exists (600 + pass_extra pass), s1. split; [exact Hc|].
  exact (@cpfp_funding_grows refLib example_cfg "uniqueId" 1 600 example_ready _ _ Hc).
Defined.

(** X12: the seller of the example offers an inscription under another
    address. *)
Lemma createInscriptionPSBT_refuses_example :
  @createInscriptionPSBT refLib example_seller (mint_txid ++ "i16") seller_key
    "bc1qsomeoneelse" seller_address 1000 escrow_key "regtest" "bitcoin"
  = inl (OrditSDKError (msg_not_sellers (mint_txid ++ "i16"))).
Proof.
  apply (@createInscriptionPSBT_refuses refLib example_seller (mint_txid ++ "i16")
           seller_key "bc1qsomeoneelse" seller_address 1000 escrow_key "regtest"
           "bitcoin" (Some (mkUTXO mint_txid 16 600 seller_address))).
  - reflexivity.
  - intros utxo [= <-]. discriminate.
Defined.

(** X13 on the example: the seller's PSBT for inscription 16, chained and
    withdrawn. *)
Lemma seller_output_is_escrow_input_example :
  exists psbt input escrow,
    @createInscriptionPSBT refLib example_seller (mint_txid ++ "i16") seller_key
      seller_address seller_address 1000 escrow_key "regtest" "bitcoin" = inr psbt /\
    @escrow_input refLib example_cfg (addInput psbt (dummy_input example_cfg sample_payment "s:bc1pcommit"))
    = inr input /\
    @getEscrowTaprootAddress refLib (mint_txid ++ ":16") escrow_key "regtest" "bitcoin"
    = inr escrow /\
    tapMerkleRoot input = Some (merkleHash escrow) /\
    witnessUtxo input = Some (mkWitnessUtxo ("s:" ++ address escrow) 600).
Proof.
  destruct (@createInscriptionPSBT refLib example_seller (mint_txid ++ "i16") seller_key
              seller_address seller_address 1000 escrow_key "regtest" "bitcoin")
    as [e|psbt] eqn:Epsbt; [vm_compute in Epsbt; discriminate Epsbt|].
  destruct (@escrow_input refLib example_cfg
              (addInput psbt (dummy_input example_cfg sample_payment "s:bc1pcommit")))
    as [e|input] eqn:Einput.
  { exfalso. vm_compute in Epsbt. injection Epsbt as <-.
    vm_compute in Einput. discriminate Einput. }
  assert (Hkeep : forall utxo i,
             @getInscriptionUTXO example_seller (mint_txid ++ "i16") = inr (Some utxo) ->
             @processInputWith example_seller utxo seller_key (network example_cfg) 129
             = inr i ->
             hash i = utxo_txid utxo /\ index i = utxo_n utxo).
  { intros utxo i Hu Hi. vm_compute in Hu. injection Hu as <-.
    vm_compute in Hi. injection Hi as <-. split; reflexivity. }
  destruct (@seller_output_is_escrow_input refLib example_seller example_cfg
              (mint_txid ++ "i16") seller_key seller_address seller_address 1000
              psbt (dummy_input example_cfg sample_payment "s:bc1pcommit") input
              Epsbt Hkeep Einput)
    as (utxo & escrow & w & Hu & He & _ & _ & Hm & Hw & Hv & Hs).
  exists psbt, input, escrow. split; [reflexivity|]. split; [exact Einput|].
  vm_compute in Hu. injection Hu as <-.
  split; [exact He|]. split; [exact Hm|].
  rewrite Hw. destruct w as [script value]. cbn in Hv, Hs.
  unfold ref_toOutputScript in Hs.
  destruct (address_type (address escrow)); [|discriminate Hs].
  injection Hs as <-. now rewrite Hv.
Defined.

(** X14 on the example: the index of the example lists inscription 16 on
    the seller's address. *)
Lemma seller_psbt_is_valid_example :
  exists psbt,
    @createInscriptionPSBT refLib example_seller (mint_txid ++ "i16") seller_key
      seller_address seller_address 1000 escrow_key "regtest" "bitcoin" = inr psbt /\
    @validate_one refLib example_datasource example_cfg psbt = inr tt.
Proof.
  destruct (@createInscriptionPSBT refLib example_seller (mint_txid ++ "i16") seller_key
              seller_address seller_address 1000 escrow_key "regtest" "bitcoin")
    as [e|psbt] eqn:Epsbt; [vm_compute in Epsbt; discriminate Epsbt|].
  exists psbt. split; [reflexivity|].
  apply (@seller_psbt_is_valid refLib example_seller example_cfg example_datasource
           (mint_txid ++ "i16") seller_key seller_address seller_address 1000
           escrow_key "bitcoin" psbt Epsbt).
  - discriminate.
  - intros utxo i Hu Hi. vm_compute in Hu. injection Hu as <-.
    vm_compute in Hi. injection Hi as <-.
    split; [reflexivity|]. split; [reflexivity|].
    eexists. eexists. split; [reflexivity|]. split; vm_compute; reflexivity.
  - intros utxo Hu. vm_compute in Hu. injection Hu as <-.
    exists [mkInscription (mint_txid ++ ":16") seller_address].
    exists (mkInscription (mint_txid ++ ":16") seller_address).
    split; [vm_compute; reflexivity|]. split; [left; reflexivity|].
    split; vm_compute; reflexivity.
Defined.

(** X15 on the example: the seller's PSBT for inscription 16 chained to
    output 0 of the sample first transaction. *)
Lemma buyer_signs_index_one_example :
  exists psbt s' second appended,
    @createInscriptionPSBT refLib example_seller (mint_txid ++ "i16") seller_key
      seller_address seller_address 1000 escrow_key "regtest" "bitcoin" = inr psbt /\
    @createSecondTransaction refLib example_cfg sample_first 0 psbt sample_session
    = (s', Returns second) /\
    nth_error (inputs second) 1 = Some appended /\
    hash appended = "f1f1".
Proof.
  destruct (@createInscriptionPSBT refLib example_seller (mint_txid ++ "i16") seller_key
              seller_address seller_address 1000 escrow_key "regtest" "bitcoin")
    as [e|psbt] eqn:Epsbt; [vm_compute in Epsbt; discriminate Epsbt|].
  destruct (@createSecondTransaction refLib example_cfg sample_first 0 psbt sample_session)
    as [s' [second|e|]] eqn:Erun.
  - destruct (@buyer_signs_index_one refLib example_seller example_cfg
                (mint_txid ++ "i16") seller_key seller_address seller_address 1000
                escrow_key "regtest" "bitcoin" psbt sample_first 0%nat sample_session
                s' second Epsbt Erun)
      as (_ & _ & appended & Hnth & Hid & _).
    exists psbt, s', second, appended. split; [reflexivity|]. split; [exact Erun|].
    split; [exact Hnth|]. cbn in Hid. congruence.
  - exfalso. vm_compute in Epsbt. injection Epsbt as <-.
    vm_compute in Erun. discriminate Erun.
  - exfalso. vm_compute in Epsbt. injection Epsbt as <-.
    vm_compute in Erun. discriminate Erun.
Defined.


